(** * A shallow embedding of the PostGIS GeoJSON backend

    The repository is a thin FastAPI layer: [db.py] holds the GeoJSON
    adapter ([parse_geojson_geometry], [rows_to_featurecollection],
    [one_geom_to_feature]) and [backend/main.py] holds one handler per
    spatial operation.  Each handler reads a JSON body, validates it,
    runs one or two parameterised SQL statements and shapes the rows.

    - JSON values and Python dictionaries are modelled by [json], with
      objects as finite maps keyed by strings;
    - Python exceptions are modelled by [exn] and the error monad
      [result];
    - the SQL text of each handler is interpreted over an abstract spatial
      engine ([PostGIS]): the spatial functions are fields of the class,
      while [WHERE], [ORDER BY], [LIMIT], aggregates and NULL propagation
      are written out. *)

From Stdlib Require Import ZArith QArith Qround Lia Ascii String.
From stdpp Require Import base option list gmap strings sorting.

Set Warnings "-register-all".
Local Open Scope string_scope.
Local Open Scope Z_scope.

(** ** JSON values, as Python sees them after decoding

    [JFloat] carries the rational denoted by a finite double; NaN and the
    infinities are not modelled. *)

Inductive json : Type :=
| JNull
| JBool (b : bool)
| JInt (z : Z)
| JFloat (q : Q)
| JStr (s : string)
| JList (l : list json)
| JObj (m : gmap string json).

(** ** Exceptions and the error monad *)

Inductive exn : Type :=
| HTTPException (status_code : Z) (detail : string)
| ValueError (msg : string)
| JSONDecodeError
| TypeError
| AttributeError
| DatabaseError.

Inductive result (A : Type) : Type :=
| Return (a : A)
| Raise (e : exn).
Arguments Return {A} a.
Arguments Raise {A} e.

Definition bind {A B : Type} (m : result A) (k : A -> result B) : result B :=
  match m with
  | Return a => k a
  | Raise e => Raise e
  end.

Notation "'let!' x ':=' m 'in' k" := (bind m (fun x => k))
  (at level 10, x name, m at level 100, k at level 200).

(** [JSONDecodeError] is a subclass of [ValueError]. *)
Definition is_ValueError (e : exn) : bool :=
  match e with
  | ValueError _ | JSONDecodeError => true
  | _ => false
  end.

Definition is_HTTPException (e : exn) : bool :=
  match e with
  | HTTPException _ _ => true
  | _ => false
  end.

(** A client error is an [HTTPException] with a 4xx status. *)
Definition is_client_error (e : exn) : bool :=
  match e with
  | HTTPException c _ => (400 <=? c) && (c <? 500)
  | _ => false
  end.

(** ** Python primitives used by the handlers *)

Module Py.

(** Truth value of an object, as tested by [if x] and [x or y]. *)
Definition truthy (v : json) : bool :=
  match v with
  | JNull => false
  | JBool b => b
  | JInt z => negb (z =? 0)
  | JFloat q => negb (Qnum q =? 0)
  | JStr s => negb (String.eqb s "")
  | JList l => match l with [] => false | _ => true end
  | JObj m => negb (Nat.eqb (size m) 0)
  end.

(** [x is None] *)
Definition is_None (v : json) : bool :=
  match v with
  | JNull => true
  | _ => false
  end.

(** [x == s] for a string literal [s] *)
Definition eq_str (v : json) (s : string) : bool :=
  match v with
  | JStr s' => String.eqb s' s
  | _ => false
  end.

(** [d.get(k)]: the value, or [None] when the key is absent. *)
Definition get (d : gmap string json) (k : string) : json :=
  default JNull (d !! k).

(** [d.get(k, dflt)]. *)
Definition get_default (d : gmap string json) (k : string) (dflt : json) : json :=
  default dflt (d !! k).

(** [a or b]. *)
Definition or_else (a b : json) : json :=
  if truthy a then a else b.

(** [str.lower], on the ASCII letters.  The handlers only compare the
    result with ["regions"], and no character outside ASCII lowers to one
    of its letters, so the comparison is the one Python makes. *)
Definition lower_ascii (c : ascii) : ascii :=
  let n := nat_of_ascii c in
  if ((65 <=? n) && (n <=? 90))%nat then ascii_of_nat (n + 32) else c.

Fixpoint lower (s : string) : string :=
  match s with
  | EmptyString => EmptyString
  | String c tl => String (lower_ascii c) (lower tl)
  end.

(** [x.lower()]: only [str] has the method. *)
Definition call_lower (v : json) : result string :=
  match v with
  | JStr s => Return (lower s)
  | _ => Raise AttributeError
  end.

(** *** [int(x)]

    A string is converted as Python does for ASCII text: surrounding
    whitespace is dropped, a sign may come first, and the digits may be
    separated by single underscores.  Strings are sequences of bytes here:
    digits and white space outside ASCII are not recognised, and the
    interpreter's bound on the number of digits of a literal is not
    modelled. *)

Definition is_space (c : ascii) : bool :=
  let n := nat_of_ascii c in
  (((9 <=? n) && (n <=? 13)) || ((28 <=? n) && (n <=? 32)))%nat.

Definition digit_of (c : ascii) : option Z :=
  let n := nat_of_ascii c in
  if ((48 <=? n) && (n <=? 57))%nat then Some (Z.of_nat (n - 48)) else None.

Fixpoint lstrip (l : list ascii) : list ascii :=
  match l with
  | c :: tl => if is_space c then lstrip tl else l
  | [] => []
  end.

Definition strip (l : list ascii) : list ascii :=
  rev (lstrip (rev (lstrip l))).

(** Decimal digits, with single underscores allowed between digits. *)
Fixpoint parse_digits (acc : Z) (after_digit : bool) (l : list ascii) : option Z :=
  match l with
  | [] => if after_digit then Some acc else None
  | c :: tl =>
      match digit_of c with
      | Some d => parse_digits (10 * acc + d) true tl
      | None =>
          if Ascii.eqb c "_"%char && after_digit
          then parse_digits acc false tl
          else None
      end
  end.

Definition parse_int (s : string) : option Z :=
  match strip (list_ascii_of_string s) with
  | c :: tl =>
      if Ascii.eqb c "-"%char then Z.opp <$> parse_digits 0 false tl
      else if Ascii.eqb c "+"%char then parse_digits 0 false tl
      else parse_digits 0 false (c :: tl)
  | [] => None
  end.

(** [int] of a float drops the fractional part.  A [JFloat] is finite, so
    the [OverflowError] and [ValueError] of [int] on an infinity or a NaN
    have no counterpart here. *)
Definition trunc (q : Q) : Z := Z.quot (Qnum q) (Zpos (Qden q)).

Definition int (v : json) : result Z :=
  match v with
  | JInt z => Return z
  | JBool b => Return (if b then 1 else 0)
  | JFloat q => Return (trunc q)
  | JStr s =>
      match parse_int s with
      | Some z => Return z
      | None => Raise (ValueError "invalid literal for int() with base 10")
      end
  | JNull | JList _ | JObj _ => Raise TypeError
  end.

(** [float(x)] on a nullable double precision column. *)
Definition float (v : option Q) : result Q :=
  match v with
  | Some q => Return q
  | None => Raise TypeError
  end.

(** Iteration, as performed by a list comprehension: a list yields its
    elements, a string its characters (bytes here) and a mapping its keys
    (in the order of the finite map); other values are not iterable. *)
Definition iter (v : json) : result (list json) :=
  match v with
  | JList l => Return l
  | JStr s => Return ((fun c => JStr (String c EmptyString)) <$> list_ascii_of_string s)
  | JObj m => Return (JStr <$> (map_to_list m).*1)
  | _ => Raise TypeError
  end.

End Py.

(** Sequencing of a fallible function over a list, left to right. *)
Fixpoint mapM {A B : Type} (f : A -> result B) (l : list A) : result (list B) :=
  match l with
  | [] => Return []
  | a :: tl => let! b := f a in let! bs := mapM f tl in Return (b :: bs)
  end.

(** ** [db.py]: the GeoJSON adapter *)

Section Adapter.

(** [json.loads], from the Python standard library: [None] stands for a
    [JSONDecodeError]. *)
Variable json_loads : string -> option json.

Definition Feature (geometry properties : json) : json :=
  JObj (<["type" := JStr "Feature"]>
       (<["geometry" := geometry]>
       (<["properties" := properties]> ∅))).

Definition FeatureCollection (features : list json) : json :=
  JObj (<["type" := JStr "FeatureCollection"]>
       (<["features" := JList features]> ∅)).

(** One iteration of the loop of [rows_to_featurecollection]: [dict(r)],
    [r.pop(geom_key, None)], then [continue] or [features.append]. *)
Definition rows_step (geom_key : string) (features : list json)
    (r : gmap string json) : list json :=
  let geom := Py.get r geom_key in
  let r := delete geom_key r in
  if Py.is_None geom then features
  else features ++ [Feature geom (JObj r)].

Definition rows_to_featurecollection (rows : list (gmap string json))
    (geom_key : string) : json :=
  FeatureCollection (foldl (rows_step geom_key) [] rows).

Definition GEOM_KEY : string := "geom_geojson".

(** [properties or {}], with [JNull] for the default [None]. *)
Definition one_geom_to_feature (geom_obj properties : json) : json :=
  Feature geom_obj (Py.or_else properties (JObj ∅)).

Definition parse_geojson_geometry (geojson_obj : json) : result json :=
  match geojson_obj with
  | JNull => Raise (ValueError "geojson is required")
  | _ =>
      let! geojson_obj :=
        match geojson_obj with
        | JStr s =>
            match json_loads s with
            | Some j => Return j
            | None => Raise JSONDecodeError
            end
        | _ => Return geojson_obj
        end in
      match geojson_obj with
      | JObj m =>
          match m !! "type" with
          | None =>
              Raise (ValueError "Invalid GeoJSON: must be a dict with a 'type' field")
          | Some ty =>
              if Py.eq_str ty "Feature" then Return (Py.get m "geometry")
              else Return geojson_obj
          end
      | _ => Raise (ValueError "Invalid GeoJSON: must be a dict with a 'type' field")
      end
  end.

End Adapter.

(** ** The spatial database

    Everything the SQL text delegates to the engine is a field of
    [PostGIS]; the tables are the database state.  A statement either
    yields a value or fails ([DbError], raised by the driver as a
    [DatabaseError]); SQL NULL is [None] (and [JNull] once in Python). *)

Inductive table : Type := REGIONS_TABLE | FEATURES_TABLE.

Inductive dbres (A : Type) : Type :=
| DbOk (a : A)
| DbError.
Arguments DbOk {A} a.
Arguments DbError {A}.

(** A stored row: the columns the statements read. *)
Record stored (geometry : Type) : Type := Stored {
  s_id : json;
  s_osmid : json;
  s_element_type : json;
  s_name : json;
  s_tags : json;
  s_geom : option geometry
}.
Arguments Stored {geometry}.
Arguments s_id {geometry}.
Arguments s_osmid {geometry}.
Arguments s_element_type {geometry}.
Arguments s_name {geometry}.
Arguments s_tags {geometry}.
Arguments s_geom {geometry}.

(** The statements that select rows without [ORDER BY]; the table name is
    part of the text of the first two. *)
Inductive statement : Type :=
| pip_statement (tbl : table)
| intersects_statement (tbl : table)
| hits_statement.

(** Ascending order on a nullable double precision key: NULLs sort last. *)
Definition nulls_last_le (a b : option Q) : Prop :=
  match a, b with
  | Some x, Some y => (x <= y)%Q
  | _, None => True
  | None, Some _ => False
  end.

Class PostGIS : Type := {
  geometry : Type;
  (** bound parameters, as adapted by the driver and cast by the engine *)
  ST_MakePoint : json -> json -> dbres geometry;
  ST_GeomFromGeoJSON : json -> dbres (option geometry);
  bind_float8 : json -> dbres Q;
  bind_id_array : json -> dbres (json -> bool);
  (** spatial functions on non-NULL arguments *)
  ST_SetSRID : geometry -> Z -> geometry;
  ST_AsGeoJSON : geometry -> gmap string json;
  GeometryType_polygonal : geometry -> bool;
  ST_Covers : geometry -> geometry -> bool;
  ST_Intersects : geometry -> geometry -> bool;
  ST_Distance_geography : geometry -> geometry -> Q;
  ST_DWithin_geography : geometry -> geometry -> Q -> bool;
  knn_distance : geometry -> geometry -> Q;
  ST_Buffer_geography : geometry -> Q -> geometry;
  ST_Area_geography : geometry -> Q;
  ST_Perimeter_geography : geometry -> Q;
  ST_Union_agg : geometry -> list geometry -> geometry;
  ST_Union_array : list (option geometry) -> option geometry;
  ST_Intersection : geometry -> geometry -> option geometry;
  ST_Transform : geometry -> Z -> dbres geometry;
  (** double precision division *)
  float8_div : Q -> Q -> Q;
  (** the database state *)
  table_rows : table -> list (stored geometry);
  (** [ORDER BY key]: some ascending arrangement of the rows; the order
      of rows with equal keys is the engine's choice. *)
  order_by : (stored geometry -> option Q) -> list (stored geometry) ->
             list (stored geometry);
  order_by_Permutation : forall key l, order_by key l ≡ₚ l;
  order_by_StronglySorted : forall key l,
    StronglySorted (fun x y => nulls_last_le (key x) (key y)) (order_by key l);
  (** Without [ORDER BY] the selected rows come in an arrangement of the
      engine's choosing, which may depend on the statement and on the
      parameters bound to it. *)
  unordered : statement -> list json -> list (stored geometry) ->
              list (stored geometry);
  unordered_Permutation : forall sql params l, unordered sql params l ≡ₚ l
}.

Section Backend.

Context `{E : PostGIS}.
Variable json_loads : string -> option json.

Definition db {A : Type} (r : dbres A) : result A :=
  match r with
  | DbOk a => Return a
  | DbError => Raise DatabaseError
  end.

(** [LIMIT n]: the count is a bigint; the engine rejects a negative count
    and one that does not fit. *)
Definition LIMIT_MAX : Z := 9223372036854775807.

Definition sql_limit {A : Type} (n : Z) (rows : list A) : result (list A) :=
  if (n <? 0) || (LIMIT_MAX <? n) then Raise DatabaseError
  else Return (take (Z.to_nat n) rows).

(** A predicate on the geometry column is not true on a NULL geometry. *)
Definition geom_satisfies (p : geometry -> bool) (r : stored geometry) : Prop :=
  match s_geom r with
  | Some g => p g = true
  | None => False
  end.

#[global] Instance geom_satisfies_dec p r : Decision (geom_satisfies p r).
Proof. unfold geom_satisfies. destruct (s_geom r); apply _. Defined.

Definition sql_where (p : geometry -> bool) (rows : list (stored geometry)) :
    list (stored geometry) :=
  filter (geom_satisfies p) rows.

(** A nullable column as a Python value. *)
Definition geojson_col (g : option geometry) : json :=
  match g with
  | Some g => JObj (ST_AsGeoJSON g)
  | None => JNull
  end.

Definition float8_col (x : option Q) : json :=
  match x with
  | Some q => JFloat q
  | None => JNull
  end.

(** [COALESCE(name, '')] *)
Definition coalesce_name (v : json) : json :=
  match v with
  | JNull => JStr ""
  | _ => v
  end.

(** [SELECT id, COALESCE(name, '') AS name, ST_AsGeoJSON(geom)::json AS geom_geojson] *)
Definition select_basic (r : stored geometry) : gmap string json :=
  <["id" := s_id r]>
  (<["name" := coalesce_name (s_name r)]>
  (<["geom_geojson" := geojson_col (s_geom r)]> ∅)).

(** [SELECT id, osmid, element_type, name, tags, ST_AsGeoJSON(geom)::json AS geom_geojson] *)
Definition select_full (r : stored geometry) : gmap string json :=
  <["id" := s_id r]>
  (<["osmid" := s_osmid r]>
  (<["element_type" := s_element_type r]>
  (<["name" := s_name r]>
  (<["tags" := s_tags r]>
  (<["geom_geojson" := geojson_col (s_geom r)]> ∅))))).

(** The geodesic distance column
    [ST_Distance(geom::geography, p.pt::geography) AS dist_m]. *)
Definition dist_m_of (pt : geometry) (r : stored geometry) : option Q :=
  (fun g => ST_Distance_geography g pt) <$> s_geom r.

Definition select_with_dist (pt : geometry) (r : stored geometry) : gmap string json :=
  <["dist_m" := float8_col (dist_m_of pt r)]> (select_full r).

(** [ST_SetSRID(ST_MakePoint(%s, %s), 4326)] *)
Definition query_point (lon lat : json) : result geometry :=
  let! p := db (ST_MakePoint lon lat) in
  Return (ST_SetSRID p 4326).

(** [ST_SetSRID(ST_GeomFromGeoJSON(%s), 4326)] on [json.dumps(geom)] *)
Definition query_geom (geom : json) : result (option geometry) :=
  match ST_GeomFromGeoJSON geom with
  | DbOk g => Return ((fun g => ST_SetSRID g 4326) <$> g)
  | DbError => Raise DatabaseError
  end.

Definition table_of_source (source : string) : table :=
  if String.eqb source "regions" then REGIONS_TABLE else FEATURES_TABLE.

(** *** 0) health *)
Definition health : json := JObj (<["ok" := JBool true]> ∅).

(** *** 1) point in polygon *)
Definition pip_sql (tbl : table) (lon lat : json) (limit : Z) :
    result (list (gmap string json)) :=
  let! pt := query_point lon lat in
  let! rows := sql_limit limit
    (unordered (pip_statement tbl) [lon; lat; JInt limit]
       (sql_where (fun g => GeometryType_polygonal g && ST_Covers g pt)
          (table_rows tbl))) in
  Return (select_basic <$> rows).

Definition point_in_polygon (payload : gmap string json) : result json :=
  let lon := Py.get payload "lon" in
  let lat := Py.get payload "lat" in
  let! source := Py.call_lower (Py.or_else (Py.get payload "source") (JStr "features")) in
  let! limit := Py.int (Py.get_default payload "limit" (JInt 200)) in
  if Py.is_None lon || Py.is_None lat then Raise (HTTPException 400 "lon/lat required")
  else
    let tbl := table_of_source source in
    let! rows := pip_sql tbl lon lat limit in
    Return (rows_to_featurecollection rows GEOM_KEY).

(** *** 2) polygon intersects *)
Definition intersects_sql (tbl : table) (geom : json) (limit : Z) :
    result (list (gmap string json)) :=
  let! q := query_geom geom in
  let! rows := sql_limit limit
    (unordered (intersects_statement tbl) [geom; JInt limit]
       (sql_where (fun g => match q with Some qg => ST_Intersects g qg | None => false end)
          (table_rows tbl))) in
  Return (select_basic <$> rows).

Definition polygon_intersects (payload : gmap string json) : result json :=
  let geojson := Py.get payload "geojson" in
  let! geom := parse_geojson_geometry json_loads geojson in
  let! source := Py.call_lower (Py.or_else (Py.get payload "source") (JStr "features")) in
  let! limit := Py.int (Py.get_default payload "limit" (JInt 500)) in
  let tbl := table_of_source source in
  let! rows := intersects_sql tbl geom limit in
  Return (rows_to_featurecollection rows GEOM_KEY).

(** *** 3) within distance *)
Definition within_distance_sql (lon lat radius_m : json) (limit : Z) :
    result (list (gmap string json)) :=
  let! pt := query_point lon lat in
  let! radius := db (bind_float8 radius_m) in
  let! rows := sql_limit limit
    (order_by (dist_m_of pt)
       (sql_where (fun g => ST_DWithin_geography g pt radius) (table_rows FEATURES_TABLE))) in
  Return (select_with_dist pt <$> rows).

Definition within_distance (payload : gmap string json) : result json :=
  let lon := Py.get payload "lon" in
  let lat := Py.get payload "lat" in
  let radius_m := Py.get payload "radius_m" in
  let! limit := Py.int (Py.get_default payload "limit" (JInt 500)) in
  if Py.is_None lon || Py.is_None lat || Py.is_None radius_m
  then Raise (HTTPException 400 "lon/lat/radius_m required")
  else
    let! rows := within_distance_sql lon lat radius_m limit in
    Return (rows_to_featurecollection rows GEOM_KEY).

(** *** 4) buffer analysis *)
Definition buffer_sql (lon lat buffer_m : json) : result json :=
  let! pt := query_point lon lat in
  let! radius := db (bind_float8 buffer_m) in
  Return (JObj (ST_AsGeoJSON (ST_Buffer_geography pt radius))).

Definition hits_sql (lon lat buffer_m : json) (limit : Z) :
    result (list (gmap string json)) :=
  let! pt := query_point lon lat in
  let! radius := db (bind_float8 buffer_m) in
  let buf := ST_Buffer_geography pt radius in
  let! rows := sql_limit limit
    (unordered hits_statement [lon; lat; buffer_m; JInt limit]
       (sql_where (fun g => ST_Intersects g buf) (table_rows FEATURES_TABLE))) in
  Return (select_full <$> rows).

Definition buffer_analysis (payload : gmap string json) : result json :=
  let lon := Py.get payload "lon" in
  let lat := Py.get payload "lat" in
  let buffer_m := Py.get payload "buffer_m" in
  let! limit := Py.int (Py.get_default payload "limit" (JInt 1000)) in
  if Py.is_None lon || Py.is_None lat || Py.is_None buffer_m
  then Raise (HTTPException 400 "lon/lat/buffer_m required")
  else
    let! buf_geom := buffer_sql lon lat buffer_m in
    let! rows := hits_sql lon lat buffer_m limit in
    Return (JObj
      (<["buffer" := one_geom_to_feature buf_geom (JObj (<["buffer_m" := buffer_m]> ∅))]>
      (<["hits" := rows_to_featurecollection rows GEOM_KEY]> ∅))).

(** *** 5) area

    The statement returns one row [(area_m2, area_km2)], the second column
    being [ST_Area(q.g::geography)/1e6]; both are NULL on a NULL geometry. *)
Definition area_sql (geom : json) : result (option Q * option Q) :=
  let! g := query_geom geom in
  Return (ST_Area_geography <$> g,
          (fun g => float8_div (ST_Area_geography g) 1000000) <$> g).

Definition polygon_area (payload : gmap string json) : result json :=
  let geojson := Py.get payload "geojson" in
  let! geom := parse_geojson_geometry json_loads geojson in
  let! row := area_sql geom in
  let! area_m2 := Py.float (fst row) in
  let! area_km2 := Py.float (snd row) in
  Return (JObj (<["area_m2" := JFloat area_m2]> (<["area_km2" := JFloat area_km2]> ∅))).

(** *** 6) perimeter *)
Definition perimeter_sql (geom : json) : result (option Q * option Q) :=
  let! g := query_geom geom in
  Return (ST_Perimeter_geography <$> g,
          (fun g => float8_div (ST_Perimeter_geography g) 1000) <$> g).

Definition polygon_perimeter (payload : gmap string json) : result json :=
  let geojson := Py.get payload "geojson" in
  let! geom := parse_geojson_geometry json_loads geojson in
  let! row := perimeter_sql geom in
  let! perim_m := Py.float (fst row) in
  let! perim_km := Py.float (snd row) in
  Return (JObj (<["perimeter_m" := JFloat perim_m]>
               (<["perimeter_km" := JFloat perim_km]> ∅))).

(** *** 7) nearest neighbours

    [ORDER BY geom <-> p.pt] sorts on the planar distance between the
    stored geometry and the point; [dist_m] is the geodesic distance. *)
Definition knn_key (pt : geometry) (r : stored geometry) : option Q :=
  (fun g => knn_distance g pt) <$> s_geom r.

Definition knn_sql (lon lat : json) (k : Z) : result (list (gmap string json)) :=
  let! pt := query_point lon lat in
  let! rows := sql_limit k (order_by (knn_key pt) (table_rows FEATURES_TABLE)) in
  Return (select_with_dist pt <$> rows).

Definition knn (payload : gmap string json) : result json :=
  let lon := Py.get payload "lon" in
  let lat := Py.get payload "lat" in
  let! k := Py.int (Py.get_default payload "k" (JInt 10)) in
  if Py.is_None lon || Py.is_None lat then Raise (HTTPException 400 "lon/lat required")
  else
    let! rows := knn_sql lon lat k in
    Return (rows_to_featurecollection rows GEOM_KEY).

(** *** 8) union *)

(** The aggregate [ST_Union(geom)]: NULL inputs are ignored and the result
    is NULL when no input remains. *)
Definition sql_ST_Union (gs : list (option geometry)) : option geometry :=
  match omap id gs with
  | [] => None
  | g :: tl => Some (ST_Union_agg g tl)
  end.

(** [SELECT ST_AsGeoJSON(ST_Union(geom))::json FROM regions WHERE id = ANY(%s)]:
    an aggregate without [GROUP BY] yields exactly one row. *)
Definition union_regions_sql (region_ids : json) : result (list (list json)) :=
  let! matches := db (bind_id_array region_ids) in
  let rows := filter (fun r => matches (s_id r) = true) (table_rows REGIONS_TABLE) in
  Return [[geojson_col (sql_ST_Union (s_geom <$> rows))]].

Definition union_geoms_sql (geom_list : list json) : result (list (list json)) :=
  let! gs := mapM query_geom geom_list in
  Return [[geojson_col (ST_Union_array gs)]].

(** [cur.fetchone()] *)
Definition fetchone {A : Type} (rows : list A) : option A := head rows.

(** [row[0]] on a tuple that is known to be non-empty. *)
Definition item0 (row : list json) : json := default JNull (head row).

Definition union_polygons (payload : gmap string json) : result json :=
  let region_ids := Py.get payload "region_ids" in
  let geoms := Py.get payload "geoms" in
  if Py.truthy region_ids then
    let! rows := union_regions_sql region_ids in
    match fetchone rows with
    | None | Some [] =>
        Raise (HTTPException 404 "No geometries found for given region_ids")
    | Some row =>
        if Py.is_None (item0 row)
        then Raise (HTTPException 404 "No geometries found for given region_ids")
        else Return (one_geom_to_feature (item0 row)
               (JObj (<["source" := JStr "regions"]> (<["region_ids" := region_ids]> ∅))))
    end
  else if Py.truthy geoms then
    let! items := Py.iter geoms in
    let! geom_list := mapM (parse_geojson_geometry json_loads) items in
    let! rows := union_geoms_sql geom_list in
    match fetchone rows with
    | Some (v :: _) =>
        Return (one_geom_to_feature v
          (JObj (<["source" := JStr "geoms"]>
                (<["count" := JInt (Z.of_nat (length geom_list))]> ∅))))
    | _ => Raise TypeError
    end
  else Raise (HTTPException 400 "Provide region_ids or geoms").

(** *** 9) intersection *)

(** [ST_Intersection(a, b)]: NULL on a NULL argument; on two geometries
    the engine decides, and may itself answer NULL. *)
Definition sql_ST_Intersection (a b : option geometry) : option geometry :=
  match a, b with
  | Some a, Some b => ST_Intersection a b
  | _, _ => None
  end.

Definition intersection_sql (ga gb : json) : result (json * option Q) :=
  let! a := query_geom ga in
  let! b := query_geom gb in
  let i := sql_ST_Intersection a b in
  Return (geojson_col i, ST_Area_geography <$> i).

Definition intersection (payload : gmap string json) : result json :=
  let a := Py.get payload "a" in
  let b := Py.get payload "b" in
  if Py.is_None a || Py.is_None b
  then Raise (HTTPException 400 "Provide a and b (GeoJSON geometry or Feature)")
  else
    let! ga := parse_geojson_geometry json_loads a in
    let! gb := parse_geojson_geometry json_loads b in
    let! row := intersection_sql ga gb in
    let geom_geojson := fst row in
    let area_m2 := snd row in
    if Py.is_None geom_geojson
    then Return (Feature JNull (JObj (<["area_m2" := JFloat 0]> ∅)))
    else
      let! area := Py.float area_m2 in
      Return (one_geom_to_feature geom_geojson (JObj (<["area_m2" := JFloat area]> ∅))).

(** *** 10) transform *)
Definition transform_sql (geom : json) (to_epsg : Z) : result (json * json) :=
  let! g := query_geom geom in
  let! t := match g with
            | Some g => let! t := db (ST_Transform g to_epsg) in Return (Some t)
            | None => Return None
            end in
  Return (geojson_col g, geojson_col t).

Definition transform (payload : gmap string json) : result json :=
  let geojson := Py.get payload "geojson" in
  let! to_epsg := Py.int (Py.get_default payload "to_epsg" (JInt 3857)) in
  let! geom := parse_geojson_geometry json_loads geojson in
  let! row := transform_sql geom to_epsg in
  let geom_wgs84 := fst row in
  let geom_transformed := snd row in
  Return (one_geom_to_feature geom_wgs84
    (JObj (<["to_epsg" := JInt to_epsg]> (<["geom_transformed" := geom_transformed]> ∅)))).

End Backend.

(** ** Reading a response *)

Definition fc_features (fc : json) : list json :=
  match fc with
  | JObj m =>
      match m !! "features" with
      | Some (JList l) => l
      | _ => []
      end
  | _ => []
  end.

Definition feature_properties (f : json) : gmap string json :=
  match f with
  | JObj m =>
      match m !! "properties" with
      | Some (JObj p) => p
      | _ => ∅
      end
  | _ => ∅
  end.

Definition feature_geometry (f : json) : json :=
  match f with
  | JObj m => Py.get m "geometry"
  | _ => JNull
  end.

(** The distance a feature reports in its properties. *)
Definition feature_dist_m (f : json) : option Q :=
  match feature_properties f !! "dist_m" with
  | Some (JFloat d) => Some d
  | _ => None
  end.

(** The feature a row contributes, if any. *)
Definition feature_of_row (geom_key : string) (r : gmap string json) : option json :=
  if Py.is_None (Py.get r geom_key) then None
  else Some (Feature (Py.get r geom_key) (JObj (delete geom_key r))).

(** A row with a geometry: the column is present and not null. *)
Definition has_geometry (geom_key : string) (r : gmap string json) : Prop :=
  Py.is_None (Py.get r geom_key) = false.

#[global] Instance has_geometry_dec k r : Decision (has_geometry k r).
Proof. unfold has_geometry. apply _. Defined.

(** The feature built from a selected row that has a geometry. *)
Definition dist_feature `{E : PostGIS} (pt : geometry) (r : stored geometry) : json :=
  Feature (geojson_col (s_geom r)) (JObj (delete GEOM_KEY (select_with_dist pt r))).

(** The object [parse_geojson_geometry] inspects: the input itself, or
    what [json.loads] makes of it when it is a string. *)
Definition decoded (json_loads : string -> option json) (x : json) : option json :=
  match x with
  | JStr s => json_loads s
  | _ => Some x
  end.

(** A request body lacks a field when the key is absent. *)
Definition lacks (payload : gmap string json) (k : string) : Prop :=
  payload !! k = None.


(** The properties of a row selected with [id] and [name] only, and with
    all the attribute columns. *)
Definition basic_properties `{E : PostGIS} (r : stored geometry) : gmap string json :=
  <["id" := s_id r]> (<["name" := coalesce_name (s_name r)]> ∅).

Definition basic_feature `{E : PostGIS} (r : stored geometry) : json :=
  Feature (geojson_col (s_geom r)) (JObj (basic_properties r)).

Definition full_properties `{E : PostGIS} (r : stored geometry) : gmap string json :=
  <["id" := s_id r]>
  (<["osmid" := s_osmid r]>
  (<["element_type" := s_element_type r]>
  (<["name" := s_name r]>
  (<["tags" := s_tags r]> ∅)))).

Definition full_feature `{E : PostGIS} (r : stored geometry) : json :=
  Feature (geojson_col (s_geom r)) (JObj (full_properties r)).

(** The predicates of the point-in-polygon and intersects statements. *)
Definition covers_point `{E : PostGIS} (pt g : geometry) : bool :=
  GeometryType_polygonal g && ST_Covers g pt.

Definition intersects_query `{E : PostGIS} (q : option geometry) (g : geometry) : bool :=
  match q with
  | Some qg => ST_Intersects g qg
  | None => false
  end.

(** ** A small concrete engine

    Geometries are points, rectangles with sides along the meridians and
    parallels, and the empty geometry, in micro-degrees near latitude 60 N.
    The planar distance is the Euclidean distance in degrees; the geodesic
    distance is the equirectangular approximation in metres, where a degree
    of longitude is half as long as a degree of latitude (cos 60 = 1/2).
    As in PostGIS, the intersection of two geometries that do not meet is
    the empty geometry, not NULL. *)

Module Demo.

Definition point : Type := (Z * Z)%type.

Inductive geom : Type :=
| Pt (p : point)
| Box (sw ne : point)
| Nothing.

Definition micro (v : json) : option Z :=
  match v with
  | JInt z => Some (z * 1000000)
  | JFloat q => Some (Qfloor (q * 1000000))
  | _ => None
  end.

Definition position (v : json) : option point :=
  match v with
  | JList [x; y] =>
      match micro x, micro y with
      | Some a, Some b => Some (a, b)
      | _, _ => None
      end
  | _ => None
  end.

Definition make_point (lon lat : json) : dbres geom :=
  match position (JList [lon; lat]) with
  | Some p => DbOk (Pt p)
  | None => DbError
  end.

(** The ring of a rectangle: south-west corner first, counter-clockwise. *)
Definition ring (sw ne : point) : list point :=
  [sw; (fst ne, snd sw); ne; (fst sw, snd ne); sw].

Definition point_eqb (a b : point) : bool :=
  (fst a =? fst b) && (snd a =? snd b).

Fixpoint ring_eqb (l1 l2 : list point) : bool :=
  match l1, l2 with
  | [], [] => true
  | a :: l1, b :: l2 => point_eqb a b && ring_eqb l1 l2
  | _, _ => false
  end.

Definition from_positions (ps : list (option point)) : dbres (option geom) :=
  match ps with
  | [Some a; Some b; Some c; Some d; Some e] =>
      if ring_eqb [a; b; c; d; e] (ring a c) && (fst a <=? fst c) && (snd a <=? snd c)
      then DbOk (Some (Box a c)) else DbError
  | _ => DbError
  end.

Definition from_geojson (j : json) : dbres (option geom) :=
  match j with
  | JObj m =>
      match m !! "type", m !! "coordinates" with
      | Some ty, Some c =>
          if Py.eq_str ty "Point" then
            match position c with
            | Some p => DbOk (Some (Pt p))
            | None => DbError
            end
          else if Py.eq_str ty "Polygon" then
            match c with
            | JList [JList ps] => from_positions (position <$> ps)
            | _ => DbError
            end
          else DbError
      | _, _ => DbError
      end
  | _ => DbError
  end.

Definition coordinates (p : point) : json :=
  JList [JFloat (fst p # 1000000); JFloat (snd p # 1000000)].

Definition as_geojson (g : geom) : gmap string json :=
  match g with
  | Pt p => <["type" := JStr "Point"]> (<["coordinates" := coordinates p]> ∅)
  | Box sw ne =>
      <["type" := JStr "Polygon"]>
      (<["coordinates" := JList [JList (coordinates <$> ring sw ne)]]> ∅)
  | Nothing =>
      <["type" := JStr "GeometryCollection"]> (<["geometries" := JList []]> ∅)
  end.

Definition float8 (v : json) : dbres Q :=
  match v with
  | JInt z => DbOk (inject_Z z)
  | JFloat q => DbOk q
  | _ => DbError
  end.

Definition same_int (a b : json) : bool :=
  match a, b with
  | JInt x, JInt y => x =? y
  | _, _ => false
  end.

Definition all_int (l : list json) : bool :=
  forallb (fun v => match v with JInt _ => true | _ => false end) l.

Definition id_array (v : json) : dbres (json -> bool) :=
  match v with
  | JList ids => if all_int ids then DbOk (fun id => existsb (same_int id) ids) else DbError
  | _ => DbError
  end.

Definition polygonal (g : geom) : bool :=
  match g with
  | Box _ _ => true
  | _ => false
  end.

(** The point lies in the geometry, boundary included. *)
Definition contains (g : geom) (p : point) : bool :=
  match g with
  | Pt q => point_eqb q p
  | Box sw ne =>
      (fst sw <=? fst p) && (fst p <=? fst ne) && (snd sw <=? snd p) && (snd p <=? snd ne)
  | Nothing => false
  end.

Definition covers (a b : geom) : bool :=
  match b with
  | Pt p => contains a p
  | Box sw ne => polygonal a && contains a sw && contains a ne
  | Nothing => false
  end.

(** The geometry the two have in common; [Nothing] when they do not meet. *)
Definition meet (a b : geom) : geom :=
  match a, b with
  | Pt p, _ => if contains b p then Pt p else Nothing
  | _, Pt p => if contains a p then Pt p else Nothing
  | Box sw1 ne1, Box sw2 ne2 =>
      let sw := (Z.max (fst sw1) (fst sw2), Z.max (snd sw1) (snd sw2)) in
      let ne := (Z.min (fst ne1) (fst ne2), Z.min (snd ne1) (snd ne2)) in
      if (fst sw <=? fst ne) && (snd sw <=? snd ne) then Box sw ne else Nothing
  | _, _ => Nothing
  end.

Definition is_empty (g : geom) : bool :=
  match g with
  | Nothing => true
  | _ => false
  end.

Definition intersects (a b : geom) : bool := negb (is_empty (meet a b)).

(** The point of the geometry nearest to [p]. *)
Definition nearest (g : geom) (p : point) : point :=
  match g with
  | Pt q => q
  | Box sw ne =>
      (Z.max (fst sw) (Z.min (fst p) (fst ne)), Z.max (snd sw) (Z.min (snd p) (snd ne)))
  | Nothing => p
  end.

Definition anchor (g : geom) : point :=
  match g with
  | Pt p => p
  | Box sw _ => sw
  | Nothing => (0, 0)
  end.

(** degrees *)
Definition planar (a b : geom) : Q :=
  let p := anchor b in
  let q := nearest a p in
  let dx := fst q - fst p in
  let dy := snd q - snd p in
  Z.sqrt (dx * dx + dy * dy) # 1000000.

(** metres: 0.11132 m per micro-degree of latitude *)
Definition geodesic (a b : geom) : Q :=
  let p := anchor b in
  let q := nearest a p in
  let dx := (fst q - fst p) / 2 in
  let dy := snd q - snd p in
  (Z.sqrt (dx * dx + dy * dy) * 11132) # 100000.

(** The rectangle reaching [r] metres north and south, and as far east and
    west, of the geometry: it stands for the buffer. *)
Definition buffer (g : geom) (r : Q) : geom :=
  let dy := Qfloor (r * (100000 # 11132)) in
  let dx := 2 * dy in
  match g with
  | Pt p => Box (fst p - dx, snd p - dy) (fst p + dx, snd p + dy)
  | Box sw ne => Box (fst sw - dx, snd sw - dy) (fst ne + dx, snd ne + dy)
  | Nothing => Nothing
  end.

(** square metres and metres *)
Definition area (g : geom) : Q :=
  match g with
  | Box sw ne =>
      ((fst ne - fst sw) * (snd ne - snd sw) * 11132 * 11132) # 20000000000
  | _ => 0
  end.

Definition perimeter (g : geom) : Q :=
  match g with
  | Box sw ne => (((fst ne - fst sw) + 2 * (snd ne - snd sw)) * 11132) # 100000
  | _ => 0
  end.

Definition south_west (g : geom) : point :=
  match g with
  | Box sw _ => sw
  | _ => anchor g
  end.

Definition north_east (g : geom) : point :=
  match g with
  | Box _ ne => ne
  | _ => anchor g
  end.

(** The rectangle around two geometries, standing for their union. *)
Definition hull (a b : geom) : geom :=
  match a, b with
  | Nothing, g | g, Nothing => g
  | _, _ =>
      let sw := (Z.min (fst (south_west a)) (fst (south_west b)),
                 Z.min (snd (south_west a)) (snd (south_west b))) in
      let ne := (Z.max (fst (north_east a)) (fst (north_east b)),
                 Z.max (snd (north_east a)) (snd (north_east b))) in
      if point_eqb sw ne then Pt sw else Box sw ne
  end.

Definition union_array (gs : list (option geom)) : option geom :=
  match omap id gs with
  | [] => None
  | g :: tl => Some (foldl hull g tl)
  end.

Definition scale (p : point) : point := (fst p * 111320, snd p * 111320).

Definition project (g : geom) (srid : Z) : dbres geom :=
  if (srid =? 4326) || (srid =? 3857) then
    DbOk match g with
         | Pt p => Pt (scale p)
         | Box sw ne => Box (scale sw) (scale ne)
         | Nothing => Nothing
         end
  else DbError.

Definition place (id : Z) (name : string) (g : geom) : stored geom :=
  Stored (JInt id) (JInt (1000 + id)) (JStr "node") (JStr name) (JObj ∅) (Some g).

(** Two features east and north of (30 E, 60 N), and two regions that hold
    that point: one around it, one degree wide and high, and its western
    neighbour, which overlaps it. *)
Definition rows (t : table) : list (stored geom) :=
  match t with
  | FEATURES_TABLE =>
      [place 1 "east" (Pt (31000000, 60000000));
       place 2 "north" (Pt (30000000, 60900000))]
  | REGIONS_TABLE =>
      [place 7 "centre" (Box (29500000, 59500000) (30500000, 60500000));
       place 8 "west" (Box (28500000, 59500000) (30000000, 60500000))]
  end.

Definition key_le (key : stored geom -> option Q) (x y : stored geom) : Prop :=
  nulls_last_le (key x) (key y).

#[global] Instance nulls_last_le_dec a b : Decision (nulls_last_le a b).
Proof.
  destruct a as [x|], b as [y|]; simpl; try apply _.
  unfold Qle. apply _.
Defined.

#[global] Instance key_le_dec key : RelDecision (key_le key).
Proof. intros x y. unfold key_le. apply _. Defined.

Definition sort (key : stored geom -> option Q) (l : list (stored geom)) :
    list (stored geom) :=
  merge_sort (key_le key) l.

(** [json.loads] restricted to the one document the examples send. *)
Definition loads (s : string) : option json :=
  if String.eqb s "{}" then Some (JObj ∅) else None.

End Demo.

(** The order of the concrete engine is total and transitive, as
    [merge_sort] requires. *)

Lemma nulls_last_le_total (a b : option Q) :
  nulls_last_le a b \/ nulls_last_le b a.
Proof.
  destruct a as [x|], b as [y|]; simpl; auto.
  destruct (Qlt_le_dec x y) as [Hlt|Hle]; [left; apply Qlt_le_weak, Hlt | right; exact Hle].
Qed.

Lemma nulls_last_le_trans (a b c : option Q) :
  nulls_last_le a b -> nulls_last_le b c -> nulls_last_le a c.
Proof.
  destruct a as [x|], b as [y|], c as [z|]; simpl; try tauto.
  apply Qle_trans.
Qed.

#[global] Instance key_le_total key : Total (Demo.key_le key).
Proof. intros x y. apply nulls_last_le_total. Qed.

#[global] Instance key_le_trans key : Transitive (Demo.key_le key).
Proof. intros x y z. apply nulls_last_le_trans. Qed.

(** The concrete engine.  Rows selected without [ORDER BY] come out in
    reverse table order. *)
Definition demo : PostGIS := {|
  geometry := Demo.geom;
  ST_MakePoint := Demo.make_point;
  ST_GeomFromGeoJSON := Demo.from_geojson;
  bind_float8 := Demo.float8;
  bind_id_array := Demo.id_array;
  ST_SetSRID := fun g _ => g;
  ST_AsGeoJSON := Demo.as_geojson;
  GeometryType_polygonal := Demo.polygonal;
  ST_Covers := Demo.covers;
  ST_Intersects := Demo.intersects;
  ST_Distance_geography := Demo.geodesic;
  ST_DWithin_geography := fun a b r => Qle_bool (Demo.geodesic a b) r;
  knn_distance := Demo.planar;
  ST_Buffer_geography := Demo.buffer;
  ST_Area_geography := Demo.area;
  ST_Perimeter_geography := Demo.perimeter;
  ST_Union_agg := fun g gs => foldl Demo.hull g gs;
  ST_Union_array := Demo.union_array;
  ST_Intersection := fun a b => Some (Demo.meet a b);
  ST_Transform := Demo.project;
  float8_div := Qdiv;
  table_rows := Demo.rows;
  order_by := Demo.sort;
  order_by_Permutation := fun key l => merge_sort_Permutation (Demo.key_le key) l;
  order_by_StronglySorted := fun key l => StronglySorted_merge_sort (Demo.key_le key) l;
  unordered := fun _ _ l => reverse l;
  unordered_Permutation := fun _ _ l => reverse_Permutation l
|}.

(** Requests and responses used as examples. *)

Definition demo_point (lon lat : Z) : json :=
  JObj (<["type" := JStr "Point"]> (<["coordinates" := JList [JInt lon; JInt lat]]> ∅)).

Definition demo_polygon (west south east north : Z) : json :=
  JObj (<["type" := JStr "Polygon"]>
       (<["coordinates" :=
            JList [JList [JList [JInt west; JInt south]; JList [JInt east; JInt south];
                          JList [JInt east; JInt north]; JList [JInt west; JInt north];
                          JList [JInt west; JInt south]]]]> ∅)).

Definition demo_transform_request : gmap string json :=
  <["geojson" := demo_point 30 60]> ∅.

Definition demo_transform_response : json :=
  Feature (JObj (Demo.as_geojson (Demo.Pt (30000000, 60000000))))
    (JObj (<["to_epsg" := JInt 3857]>
          (<["geom_transformed" :=
               JObj (Demo.as_geojson (Demo.Pt (3339600000000, 6679200000000)))]> ∅))).

Definition demo_within_request : gmap string json :=
  <["lon" := JInt 30]> (<["lat" := JInt 60]> (<["radius_m" := JInt 200000]> ∅)).

Definition demo_within_response : json :=
  rows_to_featurecollection
    (select_with_dist (E := demo) (Demo.Pt (30000000, 60000000)) <$> Demo.rows FEATURES_TABLE)
    GEOM_KEY.

Definition demo_knn_request : gmap string json :=
  <["lon" := JInt 30]> (<["lat" := JInt 60]> ∅).

Definition demo_pip_request : gmap string json :=
  <["lon" := JInt 200]> (<["lat" := JInt 200]> ∅).

Definition demo_regions_request : gmap string json :=
  <["lon" := JInt 30]>
  (<["lat" := JInt 60]> (<["source" := JStr "Regions"]> (<["limit" := JInt 1]> ∅))).

Definition demo_regions_response : json :=
  FeatureCollection
    [basic_feature (E := demo)
       (Demo.place 8 "west" (Demo.Box (28500000, 59500000) (30000000, 60500000)))].

Definition demo_intersects_request : gmap string json :=
  <["geojson" := demo_polygon 29 59 32 61]> ∅.

Definition demo_intersects_response : json :=
  FeatureCollection
    [basic_feature (E := demo) (Demo.place 2 "north" (Demo.Pt (30000000, 60900000)));
     basic_feature (E := demo) (Demo.place 1 "east" (Demo.Pt (31000000, 60000000)))].

Definition demo_buffer_request : gmap string json :=
  <["lon" := JInt 30]> (<["lat" := JInt 60]> (<["buffer_m" := JInt 200000]> ∅)).

Definition demo_buffer_response : json :=
  JObj
    (<["buffer" :=
         Feature
           (JObj (Demo.as_geojson (Demo.Box (26406756, 58203378) (33593244, 61796622))))
           (JObj (<["buffer_m" := JInt 200000]> ∅))]>
    (<["hits" :=
         FeatureCollection
           [full_feature (E := demo) (Demo.place 2 "north" (Demo.Pt (30000000, 60900000)));
            full_feature (E := demo) (Demo.place 1 "east" (Demo.Pt (31000000, 60000000)))]]>
       ∅)).


(** * Properties *)

(** ** The error monad *)

Lemma bind_Return {A B : Type} (m : result A) (k : A -> result B) (b : B) :
  bind m k = Return b -> exists a, m = Return a /\ k a = Return b.
Proof. destruct m as [a|e]; simpl; [eauto | discriminate]. Qed.

(** ** Ordering *)

Lemma StronglySorted_sublist {A : Type} (R : relation A) (l1 l2 : list A) :
  sublist l1 l2 -> StronglySorted R l2 -> StronglySorted R l1.
Proof.
  induction 1 as [|x l1 l2 Hsub IH|x l1 l2 Hsub IH]; intros Hs.
  - constructor.
  - apply StronglySorted_inv in Hs as [Hs Hall].
    constructor; [auto|].
    rewrite Forall_forall in Hall |- *.
    intros y Hy. apply Hall. eapply sublist_submseteq, elem_of_submseteq in Hsub; eauto.
  - apply StronglySorted_inv in Hs as [Hs _]. auto.
Qed.

Lemma StronglySorted_fmap {A B : Type} (R : relation B) (f : A -> B) (l : list A) :
  StronglySorted (fun x y => R (f x) (f y)) l -> StronglySorted R (f <$> l).
Proof.
  induction 1 as [|x l Hs IH Hall]; simpl; constructor; auto.
  rewrite Forall_fmap. exact Hall.
Qed.

(** ** The adapter *)

Lemma foldl_rows_step (geom_key : string) (rows : list (gmap string json))
    (acc : list json) :
  foldl (rows_step geom_key) acc rows = (acc ++ omap (feature_of_row geom_key) rows)%list.
Proof.
  revert acc. induction rows as [|r rows IH]; intros acc; simpl.
  - now rewrite app_nil_r.
  - rewrite IH. unfold rows_step, feature_of_row.
    destruct (Py.is_None (Py.get r geom_key)); [reflexivity|].
    now rewrite <- app_assoc.
Qed.

Lemma rows_to_featurecollection_omap (rows : list (gmap string json)) (geom_key : string) :
  rows_to_featurecollection rows geom_key =
  FeatureCollection (omap (feature_of_row geom_key) rows).
Proof. unfold rows_to_featurecollection. now rewrite foldl_rows_step. Qed.

Lemma fc_features_FeatureCollection (features : list json) :
  fc_features (FeatureCollection features) = features.
Proof. reflexivity. Qed.

Lemma feature_properties_Feature (g : json) (p : gmap string json) :
  feature_properties (Feature g (JObj p)) = p.
Proof. reflexivity. Qed.

Lemma feature_geometry_Feature (g p : json) :
  feature_geometry (Feature g p) = g.
Proof. reflexivity. Qed.

Lemma is_None_false (v : json) : Py.is_None v = false <-> v <> JNull.
Proof. destruct v; simpl; split; congruence. Qed.

Lemma has_geometry_lookup (geom_key : string) (r : gmap string json) :
  has_geometry geom_key r <-> exists g, r !! geom_key = Some g /\ g <> JNull.
Proof.
  unfold has_geometry, Py.get. rewrite is_None_false.
  destruct (r !! geom_key) as [g|]; simpl; split.
  - intros Hg. eauto.
  - intros (g' & [= <-] & Hg). exact Hg.
  - congruence.
  - intros (g' & [=] & _).
Qed.

Lemma omap_feature_of_row (geom_key : string) (rows : list (gmap string json)) :
  omap (feature_of_row geom_key) rows =
  (fun r => Feature (Py.get r geom_key) (JObj (delete geom_key r)))
    <$> filter (has_geometry geom_key) rows.
Proof.
  induction rows as [|r rows IH]; [reflexivity|].
  change (omap (feature_of_row geom_key) (r :: rows))
    with (match feature_of_row geom_key r with
          | Some f => f :: omap (feature_of_row geom_key) rows
          | None => omap (feature_of_row geom_key) rows
          end).
  rewrite IH, filter_cons.
  destruct (decide (has_geometry geom_key r)) as [Hg|Hg];
    unfold has_geometry in Hg; unfold feature_of_row.
  - now rewrite Hg.
  - apply not_false_is_true in Hg. now rewrite Hg.
Qed.

(** C6. [rows_to_featurecollection] returns a FeatureCollection whose
    features correspond, one for one and in the same order, to the input
    rows that carry a non-null value under the geometry key
    ([has_geometry]; rows where the key is absent or null contribute
    nothing); each feature's geometry is
    that value and its properties are the row without the geometry key,
    every other column unchanged. *)
Theorem rows_to_featurecollection_spec
    (rows : list (gmap string json)) (geom_key : string) :
  exists features : list json,
    rows_to_featurecollection rows geom_key = FeatureCollection features /\
    Forall2
      (fun (r : gmap string json) (f : json) =>
         exists (geom : json) (props : gmap string json),
           f = Feature geom (JObj props) /\
           r !! geom_key = Some geom /\ geom <> JNull /\
           props !! geom_key = None /\
           forall c : string, c <> geom_key -> props !! c = r !! c)
      (filter (has_geometry geom_key) rows)
      features.
Proof.
  eexists. split; [apply rows_to_featurecollection_omap|].
  rewrite omap_feature_of_row.
  apply Forall2_fmap_r, Forall_Forall2_diag, Forall_forall.
  intros r Hr. apply list_elem_of_filter in Hr as [Hg _].
  apply has_geometry_lookup in Hg as (g & Hg & Hnn).
  exists g, (delete geom_key r). unfold Py.get. rewrite Hg. simpl.
  repeat split; auto.
  - apply lookup_delete_eq.
  - intros c Hc. now apply lookup_delete_ne.
Qed.

Section AdapterProperties.

Variable json_loads : string -> option json.

Lemma parse_geojson_geometry_decoded (x : json) :
  parse_geojson_geometry json_loads x =
  match x with
  | JNull => Raise (ValueError "geojson is required")
  | _ =>
      match decoded json_loads x with
      | None => Raise JSONDecodeError
      | Some (JObj m) =>
          match m !! "type" with
          | None => Raise (ValueError "Invalid GeoJSON: must be a dict with a 'type' field")
          | Some ty =>
              Return (if Py.eq_str ty "Feature" then Py.get m "geometry" else JObj m)
          end
      | Some _ => Raise (ValueError "Invalid GeoJSON: must be a dict with a 'type' field")
      end
  end.
Proof.
  destruct x as [| | | |s| |m]; simpl; try reflexivity.
  - destruct (json_loads s) as [[| | | | | |m]|]; simpl; try reflexivity.
    destruct (m !! "type") as [ty|]; [|reflexivity]. now destruct (Py.eq_str ty "Feature").
  - destruct (m !! "type") as [ty|]; [|reflexivity]. now destruct (Py.eq_str ty "Feature").
Qed.

(** C5. [parse_geojson_geometry] fails exactly when the input is absent
    ([None]), is not a mapping after decoding (a string is decoded first;
    a string that does not decode yields no mapping), or is a mapping
    without a [type] key; every failure is a [ValueError].  Otherwise the
    (decoded) input is a mapping [m] with a [type]: when the type is
    ["Feature"] the result is [m.get("geometry")] ([None] when absent or
    null), and in all other cases the result is the mapping itself,
    whatever its other fields hold. *)
Theorem parse_geojson_geometry_spec (x : json) :
  ((exists e, parse_geojson_geometry json_loads x = Raise e) <->
     x = JNull \/
     (forall m, decoded json_loads x <> Some (JObj m)) \/
     (exists m, decoded json_loads x = Some (JObj m) /\ m !! "type" = None)) /\
  (forall e, parse_geojson_geometry json_loads x = Raise e -> is_ValueError e = true) /\
  (forall m ty,
     x <> JNull -> decoded json_loads x = Some (JObj m) -> m !! "type" = Some ty ->
     parse_geojson_geometry json_loads x =
     Return (if Py.eq_str ty "Feature" then Py.get m "geometry" else JObj m)) /\
  (forall m, x = JObj m -> Py.eq_str (Py.get m "type") "Feature" = false ->
     m !! "type" <> None -> parse_geojson_geometry json_loads x = Return x).
Proof.
  rewrite parse_geojson_geometry_decoded.
  assert (Hcases :
    x = JNull \/
    (x <> JNull /\ decoded json_loads x = None) \/
    (x <> JNull /\ exists d, decoded json_loads x = Some d /\ forall m', d <> JObj m') \/
    (x <> JNull /\ exists m', decoded json_loads x = Some (JObj m'))).
  { destruct x as [| b | z | q | s | l | m0]; auto; right;
      try (right; left; split; [discriminate|]; eexists; split;
           [reflexivity | discriminate]).
    - simpl. destruct (json_loads s) as [d|]; [|left; split; [discriminate|reflexivity]].
      right. destruct d as [| b | z | q | s' | l | m0];
        try (left; split; [discriminate|]; eexists; split; [reflexivity | discriminate]).
      right. split; [discriminate|]. eauto.
    - right. right. split; [discriminate|]. eauto. }
  destruct Hcases as [-> | [[Hx Hd] | [(Hx & d & Hd & Hnot) | (Hx & m0 & Hd)]]].
  - repeat split; simpl; eauto.
    + intros e [= <-]. reflexivity.
    + congruence.
    + discriminate.
  - assert (Hm : match x with
                 | JNull => Raise (ValueError "geojson is required")
                 | _ => @Raise json JSONDecodeError
                 end = Raise JSONDecodeError) by (destruct x; congruence).
    rewrite Hd, Hm. repeat split; try congruence.
    + intros _. right. left. congruence.
    + eauto.
    + intros e [= <-]. reflexivity.
    + intros m' -> _ _. discriminate Hd.
  - assert (Hm : forall r : result json,
               match x with
               | JNull => Raise (ValueError "geojson is required")
               | _ => r
               end = r) by (intros r; destruct x; congruence).
    rewrite Hd, Hm.
    assert (Hr : match d with
                 | JObj m =>
                     match m !! "type" with
                     | Some ty =>
                         Return (if Py.eq_str ty "Feature" then Py.get m "geometry"
                                 else JObj m)
                     | None =>
                         Raise (ValueError
                           "Invalid GeoJSON: must be a dict with a 'type' field")
                     end
                 | _ => Raise (ValueError
                           "Invalid GeoJSON: must be a dict with a 'type' field")
                 end = Raise (ValueError
                           "Invalid GeoJSON: must be a dict with a 'type' field")).
    { destruct d; try reflexivity. now destruct (Hnot m). }
    rewrite Hr. repeat split.
    + intros _. right. left. intros m' [= ->]. now destruct (Hnot m').
    + eauto.
    + intros e [= <-]. reflexivity.
    + intros m' ty _ [= ->]. now destruct (Hnot m').
    + intros m' -> _ _. simpl in Hd. injection Hd as <-. now destruct (Hnot m').
  - assert (Hm : forall r : result json,
               match x with
               | JNull => Raise (ValueError "geojson is required")
               | _ => r
               end = r) by (intros r; destruct x; congruence).
    rewrite Hd, Hm.
    destruct (m0 !! "type") as [ty|] eqn:Hty; repeat split.
    + intros [e [=]].
    + intros [-> | [Hno | (m' & [= <-] & Hnone)]]; [congruence| |congruence].
      now destruct (Hno m0).
    + intros e [=].
    + intros m' ty' _ [= <-] Hty'. rewrite Hty in Hty'. now injection Hty' as <-.
    + intros m' -> Hf _. simpl in Hd. injection Hd as <-.
      unfold Py.get in Hf. rewrite Hty in Hf. simpl in Hf. now rewrite Hf.
    + intros _. right. right. eauto.
    + eauto.
    + intros e [= <-]. reflexivity.
    + intros m' ty' _ [= <-] Hty'. congruence.
    + intros m' -> _ Hne. simpl in Hd. injection Hd as <-. congruence.
Qed.

End AdapterProperties.

(** A Feature without a geometry parses to [None]; the string ["{}"]
    decodes to a mapping without [type]. *)
Lemma parse_geojson_geometry_spec_witness :
  parse_geojson_geometry Demo.loads (JObj (<["type" := JStr "Feature"]> ∅)) =
    Return JNull /\
  exists e, parse_geojson_geometry Demo.loads (JStr "{}") = Raise e.
Proof.
  split.
  - destruct (parse_geojson_geometry_spec Demo.loads
                (JObj (<["type" := JStr "Feature"]> ∅))) as (_ & _ & H & _).
    exact (H (<["type" := JStr "Feature"]> ∅) (JStr "Feature")
             ltac:(discriminate) eq_refl eq_refl).
  - destruct (parse_geojson_geometry_spec Demo.loads (JStr "{}")) as (H & _).
    apply H. right. right. exists ∅. split; reflexivity.
Defined.

(** ** Validation of required fields *)

Lemma lacks_get (payload : gmap string json) (k : string) :
  lacks payload k -> Py.get payload k = JNull.
Proof. unfold lacks, Py.get. now intros ->. Qed.

Lemma lacks_is_None (payload : gmap string json) (k : string) :
  lacks payload k -> Py.is_None (Py.get payload k) = true.
Proof. intros H. now rewrite lacks_get. Qed.

Lemma lacks_falsy (payload : gmap string json) (k : string) :
  lacks payload k -> Py.truthy (Py.get payload k) = false.
Proof. intros H. now rewrite lacks_get. Qed.

Lemma point_in_polygon_missing `{E : PostGIS} (payload : gmap string json)
    (s : string) (n : Z) :
  Py.call_lower (Py.or_else (Py.get payload "source") (JStr "features")) = Return s ->
  Py.int (Py.get_default payload "limit" (JInt 200)) = Return n ->
  lacks payload "lon" \/ lacks payload "lat" ->
  point_in_polygon payload = Raise (HTTPException 400 "lon/lat required").
Proof.
  intros Hs Hn Hmiss. unfold point_in_polygon. rewrite Hs, Hn. simpl.
  destruct Hmiss as [H|H]; rewrite (lacks_is_None _ _ H); [reflexivity|].
  now rewrite orb_true_r.
Qed.

Lemma within_distance_missing `{E : PostGIS} (payload : gmap string json) (n : Z) :
  Py.int (Py.get_default payload "limit" (JInt 500)) = Return n ->
  lacks payload "lon" \/ lacks payload "lat" \/ lacks payload "radius_m" ->
  within_distance payload = Raise (HTTPException 400 "lon/lat/radius_m required").
Proof.
  intros Hn Hmiss. unfold within_distance. rewrite Hn. simpl.
  destruct Hmiss as [H|[H|H]]; rewrite (lacks_is_None _ _ H);
    rewrite ?orb_true_r; reflexivity.
Qed.

Lemma buffer_analysis_missing `{E : PostGIS} (payload : gmap string json) (n : Z) :
  Py.int (Py.get_default payload "limit" (JInt 1000)) = Return n ->
  lacks payload "lon" \/ lacks payload "lat" \/ lacks payload "buffer_m" ->
  buffer_analysis payload = Raise (HTTPException 400 "lon/lat/buffer_m required").
Proof.
  intros Hn Hmiss. unfold buffer_analysis. rewrite Hn. simpl.
  destruct Hmiss as [H|[H|H]]; rewrite (lacks_is_None _ _ H);
    rewrite ?orb_true_r; reflexivity.
Qed.

Lemma knn_missing `{E : PostGIS} (payload : gmap string json) (n : Z) :
  Py.int (Py.get_default payload "k" (JInt 10)) = Return n ->
  lacks payload "lon" \/ lacks payload "lat" ->
  knn payload = Raise (HTTPException 400 "lon/lat required").
Proof.
  intros Hn Hmiss. unfold knn. rewrite Hn. simpl.
  destruct Hmiss as [H|H]; rewrite (lacks_is_None _ _ H);
    rewrite ?orb_true_r; reflexivity.
Qed.

Lemma intersection_missing `{E : PostGIS} (json_loads : string -> option json)
    (payload : gmap string json) :
  lacks payload "a" \/ lacks payload "b" ->
  intersection json_loads payload =
  Raise (HTTPException 400 "Provide a and b (GeoJSON geometry or Feature)").
Proof.
  intros Hmiss. unfold intersection.
  destruct Hmiss as [H|H]; rewrite (lacks_is_None _ _ H);
    rewrite ?orb_true_r; reflexivity.
Qed.

Lemma union_polygons_unsupplied `{E : PostGIS} (json_loads : string -> option json)
    (payload : gmap string json) :
  Py.truthy (Py.get payload "region_ids") = false ->
  Py.truthy (Py.get payload "geoms") = false ->
  union_polygons json_loads payload = Raise (HTTPException 400 "Provide region_ids or geoms").
Proof. intros Hr Hg. unfold union_polygons. now rewrite Hr, Hg. Qed.

(** C1 (as amended). A body lacking a required field is answered with
    [HTTPException(400)] whose detail names the required fields:
    - point-in-polygon, within-distance, buffer and nearest-neighbour
      requests lacking [lon], [lat] (or [radius_m], [buffer_m]), provided
      the optional [limit]/[k] (and [source] for point-in-polygon), which
      are coerced first, coerce without raising;
    - intersection requests lacking [a] or [b];
    - union requests lacking both [region_ids] and [geoms]. *)
Theorem missing_required_field `{E : PostGIS} (json_loads : string -> option json)
    (payload : gmap string json) :
  (forall s n,
     Py.call_lower (Py.or_else (Py.get payload "source") (JStr "features")) = Return s ->
     Py.int (Py.get_default payload "limit" (JInt 200)) = Return n ->
     lacks payload "lon" \/ lacks payload "lat" ->
     point_in_polygon payload = Raise (HTTPException 400 "lon/lat required")) /\
  (forall n,
     Py.int (Py.get_default payload "limit" (JInt 500)) = Return n ->
     lacks payload "lon" \/ lacks payload "lat" \/ lacks payload "radius_m" ->
     within_distance payload = Raise (HTTPException 400 "lon/lat/radius_m required")) /\
  (forall n,
     Py.int (Py.get_default payload "limit" (JInt 1000)) = Return n ->
     lacks payload "lon" \/ lacks payload "lat" \/ lacks payload "buffer_m" ->
     buffer_analysis payload = Raise (HTTPException 400 "lon/lat/buffer_m required")) /\
  (forall n,
     Py.int (Py.get_default payload "k" (JInt 10)) = Return n ->
     lacks payload "lon" \/ lacks payload "lat" ->
     knn payload = Raise (HTTPException 400 "lon/lat required")) /\
  (lacks payload "a" \/ lacks payload "b" ->
     intersection json_loads payload =
     Raise (HTTPException 400 "Provide a and b (GeoJSON geometry or Feature)")) /\
  (lacks payload "region_ids" /\ lacks payload "geoms" ->
     union_polygons json_loads payload =
     Raise (HTTPException 400 "Provide region_ids or geoms")).
Proof.
  repeat split.
  - intros s n. apply point_in_polygon_missing.
  - intros n. apply within_distance_missing.
  - intros n. apply buffer_analysis_missing.
  - intros n. apply knn_missing.
  - apply intersection_missing.
  - intros [Hr Hg]. apply union_polygons_unsupplied; now apply lacks_falsy.
Qed.

(** The empty body, and the body [{"lon": 30}], on the concrete engine. *)
Lemma missing_required_field_witness :
  point_in_polygon (E := demo) ∅ = Raise (HTTPException 400 "lon/lat required") /\
  within_distance (E := demo) (<["lon" := JInt 30]> ∅) =
    Raise (HTTPException 400 "lon/lat/radius_m required") /\
  union_polygons (E := demo) Demo.loads ∅ =
    Raise (HTTPException 400 "Provide region_ids or geoms").
Proof.
  pose proof (missing_required_field (E := demo) Demo.loads ∅)
    as (Hpip & _ & _ & _ & _ & Hunion).
  pose proof (missing_required_field (E := demo) Demo.loads (<["lon" := JInt 30]> ∅))
    as (_ & Hwithin & _).
  split; [|split].
  - apply (Hpip "features" 200); [reflexivity | reflexivity | left; reflexivity].
  - apply (Hwithin 500); [reflexivity | right; left; reflexivity].
  - apply Hunion. split; reflexivity.
Defined.

(** C1 (as stated) fails: without [geojson], the area handler raises the
    adapter's [ValueError], which is no [HTTPException]; and a body without
    [lon] and [lat] whose [limit] does not convert raises from [int]. *)
Lemma missing_field_not_client_error :
  polygon_area (E := demo) Demo.loads ∅ = Raise (ValueError "geojson is required") /\
  is_client_error (ValueError "geojson is required") = false /\
  point_in_polygon (E := demo) (<["limit" := JStr "abc"]> ∅) =
    Raise (ValueError "invalid literal for int() with base 10") /\
  is_client_error (ValueError "invalid literal for int() with base 10") = false.
Proof. repeat split; vm_compute; reflexivity. Qed.

(** ** Union *)

Lemma filter_none {A : Type} (P : A -> Prop) `{!forall x, Decision (P x)} (l : list A) :
  Forall (fun x => ~ P x) l -> filter P l = [].
Proof.
  induction 1 as [|x l Hx _ IH]; [reflexivity|].
  now rewrite filter_cons_False.
Qed.





(** ** Which exceptions the parts of a handler can raise *)

Lemma bind_Raise {A B : Type} (m : result A) (k : A -> result B) (e : exn) :
  bind m k = Raise e -> m = Raise e \/ exists a, m = Return a /\ k a = Raise e.
Proof.
  destruct m as [a|e']; simpl; intros H.
  - right. exists a. split; [reflexivity | exact H].
  - left. congruence.
Qed.

Lemma int_Raise (v : json) (e : exn) :
  Py.int v = Raise e -> e = TypeError \/ exists msg, e = ValueError msg.
Proof.
  destruct v as [| b | z | q | s | l | m]; simpl; try discriminate;
    try (intros [= <-]; auto; fail).
  destruct (Py.parse_int s); [discriminate|]. intros [= <-]. eauto.
Qed.

Lemma int_Raise_not_HTTP (v : json) (e : exn) :
  Py.int v = Raise e -> is_HTTPException e = false.
Proof. intros H. apply int_Raise in H as [->|[msg ->]]; reflexivity. Qed.

Lemma call_lower_Raise (v : json) (e : exn) :
  Py.call_lower v = Raise e -> e = AttributeError.
Proof. destruct v; simpl; congruence. Qed.

Lemma parse_geojson_geometry_Raise (json_loads : string -> option json)
    (x : json) (e : exn) :
  parse_geojson_geometry json_loads x = Raise e -> is_ValueError e = true.
Proof.
  rewrite parse_geojson_geometry_decoded.
  destruct x; try (intros [= <-]; reflexivity);
    destruct (decoded _ _) as [[| | | | | |m']|]; try (intros [= <-]; reflexivity);
    destruct (m' !! "type"); intros [= <-]; reflexivity.
Qed.

Lemma parse_geojson_geometry_not_HTTP (json_loads : string -> option json)
    (x : json) (e : exn) :
  parse_geojson_geometry json_loads x = Raise e -> is_HTTPException e = false.
Proof. intros H. apply parse_geojson_geometry_Raise in H. now destruct e. Qed.

Lemma db_Raise `{E : PostGIS} {A : Type} (r : dbres A) (e : exn) :
  db r = Raise e -> e = DatabaseError.
Proof. destruct r; simpl; congruence. Qed.

Lemma sql_limit_Raise {A : Type} (n : Z) (rows : list A) (e : exn) :
  sql_limit n rows = Raise e -> e = DatabaseError.
Proof. unfold sql_limit. destruct (_ || _); congruence. Qed.

Lemma sql_limit_Return {A : Type} (n : Z) (rows sel : list A) :
  sql_limit n rows = Return sel ->
  0 <= n <= LIMIT_MAX /\ sel = take (Z.to_nat n) rows.
Proof.
  unfold sql_limit. destruct (_ || _) eqn:Hn; [discriminate|].
  intros [= <-]. apply orb_false_iff in Hn as [Hlo Hhi].
  apply Z.ltb_ge in Hlo, Hhi. auto.
Qed.

Lemma query_point_Raise `{E : PostGIS} (lon lat : json) (e : exn) :
  query_point lon lat = Raise e -> e = DatabaseError.
Proof. unfold query_point. destruct (ST_MakePoint lon lat); simpl; congruence. Qed.

Lemma query_geom_Raise `{E : PostGIS} (geom : json) (e : exn) :
  query_geom geom = Raise e -> e = DatabaseError.
Proof. unfold query_geom. destruct (ST_GeomFromGeoJSON geom); congruence. Qed.

Lemma pip_sql_Raise `{E : PostGIS} (tbl : table) (lon lat : json) (limit : Z) (e : exn) :
  pip_sql tbl lon lat limit = Raise e -> e = DatabaseError.
Proof.
  unfold pip_sql. intros H.
  apply bind_Raise in H as [H|(pt & _ & H)]; [now apply query_point_Raise in H|].
  apply bind_Raise in H as [H|(rows & _ & H)]; [now apply sql_limit_Raise in H|].
  discriminate.
Qed.


(** The only [HTTPException] of the point-in-polygon handler is the one
    for a missing [lon] or [lat]. *)
Lemma point_in_polygon_HTTPException `{E : PostGIS} (payload : gmap string json)
    (c : Z) (d : string) :
  point_in_polygon payload = Raise (HTTPException c d) ->
  c = 400 /\ d = "lon/lat required" /\
  (Py.get payload "lon" = JNull \/ Py.get payload "lat" = JNull).
Proof.
  unfold point_in_polygon. intros H.
  apply bind_Raise in H as [H|(s & _ & H)]; [now apply call_lower_Raise in H|].
  apply bind_Raise in H as [H|(n & _ & H)]; [now apply int_Raise_not_HTTP in H|].
  destruct (Py.is_None (Py.get payload "lon") || Py.is_None (Py.get payload "lat"))
    eqn:Hmiss.
  - injection H as <- <-. repeat split.
    apply orb_true_iff in Hmiss as [Hm|Hm]; [left|right];
      destruct (Py.get payload _); simpl in Hm; congruence.
  - apply bind_Raise in H as [H|(rows & _ & H)]; [now apply pip_sql_Raise in H|].
    discriminate.
Qed.


(** ** The [source] parameter *)


Lemma get_insert_ne (payload : gmap string json) (k k' : string) (v : json) :
  k <> k' -> Py.get (<[k := v]> payload) k' = Py.get payload k'.
Proof. intros H. unfold Py.get. now rewrite lookup_insert_ne. Qed.









(** ** Coercion of [limit] and [k] *)









(** ** Shaping a single feature *)

Lemma truthy_insert (k : string) (v : json) (m : gmap string json) :
  Py.truthy (JObj (<[k := v]> m)) = true.
Proof.
  simpl. apply negb_true_iff, Nat.eqb_neq. intros Hsize.
  apply map_size_empty_iff in Hsize. now apply insert_non_empty in Hsize.
Qed.

Lemma one_geom_to_feature_insert (geom : json) (k : string) (v : json)
    (m : gmap string json) :
  one_geom_to_feature geom (JObj (<[k := v]> m)) = Feature geom (JObj (<[k := v]> m)).
Proof. unfold one_geom_to_feature, Py.or_else. now rewrite truthy_insert. Qed.

(** ** Intersection *)




(** ** Area and perimeter *)

Lemma float_Return (x : option Q) (q : Q) : Py.float x = Return q -> x = Some q.
Proof. destruct x; simpl; congruence. Qed.

(** C7. In every successful area response [area_km2] is the double
    precision quotient of the reported [area_m2] by 1,000,000, and in every
    successful perimeter response [perimeter_km] is the quotient of the
    reported [perimeter_m] by 1000: the kilometre column is computed from
    the same metre value. *)
Theorem km_derived_from_m `{E : PostGIS} (json_loads : string -> option json)
    (payload : gmap string json) (resp : json) :
  (polygon_area json_loads payload = Return resp ->
   exists area_m2 : Q,
     resp = JObj (<["area_m2" := JFloat area_m2]>
                 (<["area_km2" := JFloat (float8_div area_m2 1000000)]> ∅))) /\
  (polygon_perimeter json_loads payload = Return resp ->
   exists perimeter_m : Q,
     resp = JObj (<["perimeter_m" := JFloat perimeter_m]>
                 (<["perimeter_km" := JFloat (float8_div perimeter_m 1000)]> ∅))).
Proof.
  split; intros H.
  - unfold polygon_area in H.
    apply bind_Return in H as (geom & _ & H).
    apply bind_Return in H as (row & Hrow & H).
    apply bind_Return in H as (m2 & Hm2 & H).
    apply bind_Return in H as (km2 & Hkm2 & H).
    unfold area_sql in Hrow. apply bind_Return in Hrow as (g & _ & Hrow).
    injection Hrow as <-. simpl in Hm2, Hkm2.
    apply float_Return in Hm2, Hkm2.
    destruct g as [g|]; [|discriminate]. simpl in Hm2, Hkm2.
    injection Hm2 as <-. injection Hkm2 as <-. injection H as <-. eauto.
  - unfold polygon_perimeter in H.
    apply bind_Return in H as (geom & _ & H).
    apply bind_Return in H as (row & Hrow & H).
    apply bind_Return in H as (m & Hm & H).
    apply bind_Return in H as (km & Hkm & H).
    unfold perimeter_sql in Hrow. apply bind_Return in Hrow as (g & _ & Hrow).
    injection Hrow as <-. simpl in Hm, Hkm.
    apply float_Return in Hm, Hkm.
    destruct g as [g|]; [|discriminate]. simpl in Hm, Hkm.
    injection Hm as <-. injection Hkm as <-. injection H as <-. eauto.
Qed.

Lemma km_derived_from_m_witness :
  exists area_m2 : Q,
    JObj (<["area_m2" := JFloat 0]> (<["area_km2" := JFloat (0 / 1000000)]> ∅)) =
    JObj (<["area_m2" := JFloat area_m2]>
         (<["area_km2" := JFloat (float8_div (PostGIS := demo) area_m2 1000000)]> ∅)).
Proof.
  apply (proj1 (km_derived_from_m (E := demo) Demo.loads
                  (<["geojson" := demo_point 30 60]> ∅)
                  (JObj (<["area_m2" := JFloat 0]>
                        (<["area_km2" := JFloat (0 / 1000000)]> ∅))))).
  reflexivity.
Defined.

(** ** Transform *)

(** C8. A successful transform returns a Feature whose [geometry] is the
    GeoJSON of the parsed geometry tagged with SRID 4326, not reprojected,
    and whose properties carry [to_epsg], the integer the request gave
    (3857 when the body has none), and [geom_transformed], the GeoJSON of
    that geometry reprojected to [to_epsg]. *)
Theorem transform_keeps_wgs84 `{E : PostGIS} (json_loads : string -> option json)
    (payload : gmap string json) (f : json) :
  transform json_loads payload = Return f ->
  exists (to_epsg : Z) (geom : json) (g0 : option geometry),
    Py.int (Py.get_default payload "to_epsg" (JInt 3857)) = Return to_epsg /\
    (lacks payload "to_epsg" -> to_epsg = 3857) /\
    parse_geojson_geometry json_loads (Py.get payload "geojson") = Return geom /\
    ST_GeomFromGeoJSON geom = DbOk g0 /\
    match g0 with
    | Some g0 =>
        exists t : geometry,
          ST_Transform (ST_SetSRID g0 4326) to_epsg = DbOk t /\
          feature_geometry f = JObj (ST_AsGeoJSON (ST_SetSRID g0 4326)) /\
          feature_properties f =
            <["to_epsg" := JInt to_epsg]>
              (<["geom_transformed" := JObj (ST_AsGeoJSON t)]> ∅)
    | None =>
        feature_geometry f = JNull /\
        feature_properties f =
          <["to_epsg" := JInt to_epsg]> (<["geom_transformed" := JNull]> ∅)
    end.
Proof.
  unfold transform. intros H.
  apply bind_Return in H as (n & Hn & H).
  apply bind_Return in H as (geom & Hgeom & H).
  apply bind_Return in H as (row & Hrow & H).
  injection H as <-. rewrite one_geom_to_feature_insert.
  unfold transform_sql in Hrow.
  apply bind_Return in Hrow as (g & Hg & Hrow).
  apply bind_Return in Hrow as (t & Ht & Hrow).
  injection Hrow as <-. simpl.
  unfold query_geom in Hg.
  destruct (ST_GeomFromGeoJSON geom) as [g0|] eqn:Hg0; [|discriminate].
  injection Hg as <-.
  exists n, geom, g0. split; [exact Hn|]. split.
  { intros Hl. unfold lacks in Hl. unfold Py.get_default in Hn. rewrite Hl in Hn.
    simpl in Hn. congruence. }
  split; [exact Hgeom|]. split; [exact Hg0|].
  destruct g0 as [g0|]; simpl in *.
  - apply bind_Return in Ht as (t' & Ht' & Ht). injection Ht as <-.
    destruct (ST_Transform (ST_SetSRID g0 4326) n) as [t''|] eqn:Htr; [|discriminate].
    injection Ht' as ->. exists t'. auto.
  - injection Ht as <-. auto.
Qed.

Lemma transform_keeps_wgs84_witness :
  transform (E := demo) Demo.loads demo_transform_request =
    Return demo_transform_response /\
  exists (to_epsg : Z) (geom : json) (g0 : option Demo.geom),
    Py.int (Py.get_default demo_transform_request "to_epsg" (JInt 3857)) =
      Return to_epsg /\
    (lacks demo_transform_request "to_epsg" -> to_epsg = 3857) /\
    parse_geojson_geometry Demo.loads (Py.get demo_transform_request "geojson") =
      Return geom /\
    Demo.from_geojson geom = DbOk g0 /\
    match g0 with
    | Some g0 =>
        exists t : Demo.geom,
          Demo.project g0 to_epsg = DbOk t /\
          feature_geometry demo_transform_response = JObj (Demo.as_geojson g0) /\
          feature_properties demo_transform_response =
            <["to_epsg" := JInt to_epsg]>
              (<["geom_transformed" := JObj (Demo.as_geojson t)]> ∅)
    | None =>
        feature_geometry demo_transform_response = JNull /\
        feature_properties demo_transform_response =
          <["to_epsg" := JInt to_epsg]> (<["geom_transformed" := JNull]> ∅)
    end.
Proof.
  split; [reflexivity|].
  apply (transform_keeps_wgs84 (E := demo) Demo.loads
           demo_transform_request demo_transform_response).
  reflexivity.
Defined.

(** ** Ordering of within-distance and nearest-neighbour results *)

Section Ordering.

Context `{E : PostGIS}.

Lemma get_select_with_dist (pt : geometry) (r : stored geometry) :
  Py.get (select_with_dist pt r) GEOM_KEY = geojson_col (s_geom r).
Proof.
  unfold Py.get, select_with_dist, select_full, GEOM_KEY.
  rewrite !lookup_insert_ne by discriminate. now rewrite lookup_insert_eq.
Qed.

Lemma feature_of_select_with_dist (pt : geometry) (r : stored geometry) :
  feature_of_row GEOM_KEY (select_with_dist pt r) =
  match s_geom r with
  | Some _ => Some (dist_feature pt r)
  | None => None
  end.
Proof.
  unfold feature_of_row, dist_feature. rewrite get_select_with_dist.
  destruct (s_geom r); reflexivity.
Qed.

Lemma feature_dist_m_dist_feature (pt : geometry) (r : stored geometry) :
  is_Some (s_geom r) ->
  feature_dist_m (dist_feature pt r) = dist_m_of pt r.
Proof.
  intros [g Hg]. unfold feature_dist_m, dist_feature.
  rewrite feature_properties_Feature.
  unfold select_with_dist, GEOM_KEY.
  rewrite lookup_delete_ne by discriminate. rewrite lookup_insert_eq.
  unfold dist_m_of. now rewrite Hg.
Qed.

Lemma features_of_selected (pt : geometry) (rows : list (stored geometry)) :
  fc_features (rows_to_featurecollection (select_with_dist pt <$> rows) GEOM_KEY) =
  dist_feature pt <$> filter (fun r => is_Some (s_geom r)) rows.
Proof.
  rewrite rows_to_featurecollection_omap, fc_features_FeatureCollection.
  induction rows as [|r rows IH]; [reflexivity|].
  rewrite fmap_cons, filter_cons.
  change (omap (feature_of_row GEOM_KEY) (select_with_dist pt r :: (select_with_dist pt <$> rows)))
    with (match feature_of_row GEOM_KEY (select_with_dist pt r) with
          | Some f => f :: omap (feature_of_row GEOM_KEY) (select_with_dist pt <$> rows)
          | None => omap (feature_of_row GEOM_KEY) (select_with_dist pt <$> rows)
          end).
  rewrite IH, feature_of_select_with_dist.
  destruct (s_geom r) as [g|] eqn:Hg.
  - rewrite decide_True by eauto. reflexivity.
  - rewrite decide_False by (intros [? ?]; discriminate). reflexivity.
Qed.

Lemma dists_of_selected (pt : geometry) (rows : list (stored geometry)) :
  feature_dist_m <$>
    fc_features (rows_to_featurecollection (select_with_dist pt <$> rows) GEOM_KEY) =
  dist_m_of pt <$> filter (fun r => is_Some (s_geom r)) rows.
Proof.
  rewrite features_of_selected, <- list_fmap_compose.
  apply Forall_fmap_ext, Forall_forall. intros r Hr.
  apply list_elem_of_filter in Hr as [Hg _]. simpl.
  now apply feature_dist_m_dist_feature.
Qed.

Lemma dist_m_of_Some (pt : geometry) (rows : list (stored geometry)) :
  Forall (fun r => is_Some (s_geom r)) rows ->
  dist_m_of pt <$> rows = Some <$> omap (dist_m_of pt) rows.
Proof.
  induction 1 as [|r rows [g Hg] _ IH]; [reflexivity|].
  rewrite fmap_cons, IH.
  change (omap (dist_m_of pt) (r :: rows))
    with (match dist_m_of pt r with
          | Some d => d :: omap (dist_m_of pt) rows
          | None => omap (dist_m_of pt) rows
          end).
  unfold dist_m_of at 1 3. rewrite Hg. reflexivity.
Qed.

Lemma StronglySorted_Some (ds : list Q) :
  StronglySorted nulls_last_le (Some <$> ds) -> StronglySorted Qle ds.
Proof.
  induction ds as [|d ds IH]; intros Hs; [constructor|].
  rewrite fmap_cons in Hs. apply StronglySorted_inv in Hs as [Hs Hall].
  constructor; [auto|]. rewrite Forall_fmap in Hall.
  eapply Forall_impl; [exact Hall|]. simpl. auto.
Qed.

(** Rows taken from the head of an ordered result and kept when they have
    a geometry report non-decreasing keys. *)
Lemma sorted_dists (key : stored geometry -> option Q) (n : nat)
    (rows : list (stored geometry)) :
  StronglySorted nulls_last_le
    (key <$> filter (fun r => is_Some (s_geom r)) (take n (order_by key rows))).
Proof.
  apply StronglySorted_fmap.
  eapply StronglySorted_sublist; [|apply order_by_StronglySorted].
  etransitivity; [apply sublist_filter | apply sublist_take].
Qed.

Lemma within_distance_sorted (payload : gmap string json) (fc : json) :
  within_distance payload = Return fc ->
  exists ds : list Q,
    feature_dist_m <$> fc_features fc = Some <$> ds /\ StronglySorted Qle ds.
Proof.
  unfold within_distance. intros H.
  apply bind_Return in H as (limit & _ & H).
  destruct (_ || _) in H; [discriminate|].
  apply bind_Return in H as (rows & Hrows & H). injection H as <-.
  unfold within_distance_sql in Hrows.
  apply bind_Return in Hrows as (pt & _ & Hrows).
  apply bind_Return in Hrows as (radius & _ & Hrows).
  apply bind_Return in Hrows as (sel & Hsel & Hrows). injection Hrows as <-.
  apply sql_limit_Return in Hsel as [_ ->].
  rewrite dists_of_selected.
  eexists. split.
  - apply dist_m_of_Some, Forall_forall. intros r Hr.
    apply list_elem_of_filter in Hr as [Hg _]. exact Hg.
  - apply StronglySorted_Some. rewrite <- dist_m_of_Some.
    + apply sorted_dists.
    + apply Forall_forall. intros r Hr.
      apply list_elem_of_filter in Hr as [Hg _]. exact Hg.
Qed.

Lemma knn_first_k (payload : gmap string json) (fc : json) :
  knn payload = Return fc ->
  exists (pt : geometry) (k : Z) (sorted : list (stored geometry)),
    query_point (Py.get payload "lon") (Py.get payload "lat") = Return pt /\
    Py.int (Py.get_default payload "k" (JInt 10)) = Return k /\
    0 <= k /\
    sorted ≡ₚ table_rows FEATURES_TABLE /\
    StronglySorted (fun x y => nulls_last_le (knn_key pt x) (knn_key pt y)) sorted /\
    fc = rows_to_featurecollection
           (select_with_dist pt <$> take (Z.to_nat k) sorted) GEOM_KEY /\
    feature_dist_m <$> fc_features fc =
      dist_m_of pt <$> filter (fun r => is_Some (s_geom r)) (take (Z.to_nat k) sorted).
Proof.
  unfold knn. intros H.
  apply bind_Return in H as (k & Hk & H).
  destruct (_ || _) in H; [discriminate|].
  apply bind_Return in H as (rows & Hrows & H). injection H as <-.
  unfold knn_sql in Hrows.
  apply bind_Return in Hrows as (pt & Hpt & Hrows).
  apply bind_Return in Hrows as (sel & Hsel & Hrows). injection Hrows as <-.
  apply sql_limit_Return in Hsel as [[Hpos _] ->].
  exists pt, k, (order_by (knn_key pt) (table_rows FEATURES_TABLE)).
  repeat split; auto.
  - apply order_by_Permutation.
  - apply order_by_StronglySorted.
  - apply dists_of_selected.
Qed.

End Ordering.

(** C4 (as amended). The features of a within-distance result are emitted
    in non-decreasing order of the [dist_m] they report.  The features of a
    nearest-neighbour result are built, in order, from the first [k] rows
    of the features table arranged in ascending order of the planar
    distance [geom <-> pt]; each reports in [dist_m] the geodesic distance
    of its row, which is not the key the rows are ordered by. *)
Theorem distance_results_ordered `{E : PostGIS} (payload : gmap string json) (fc : json) :
  (within_distance payload = Return fc ->
   exists ds : list Q,
     feature_dist_m <$> fc_features fc = Some <$> ds /\ StronglySorted Qle ds) /\
  (knn payload = Return fc ->
   exists (pt : geometry) (k : Z) (sorted : list (stored geometry)),
     query_point (Py.get payload "lon") (Py.get payload "lat") = Return pt /\
     Py.int (Py.get_default payload "k" (JInt 10)) = Return k /\
     0 <= k /\
     sorted ≡ₚ table_rows FEATURES_TABLE /\
     StronglySorted (fun x y => nulls_last_le (knn_key pt x) (knn_key pt y)) sorted /\
     fc = rows_to_featurecollection
            (select_with_dist pt <$> take (Z.to_nat k) sorted) GEOM_KEY /\
     feature_dist_m <$> fc_features fc =
       dist_m_of pt <$> filter (fun r => is_Some (s_geom r)) (take (Z.to_nat k) sorted)).
Proof.
  split; [apply within_distance_sorted | apply knn_first_k].
Qed.

(** Both stored features lie within 200 km of (30 E, 60 N). *)
Lemma distance_results_ordered_witness :
  within_distance (E := demo) demo_within_request = Return demo_within_response /\
  exists ds : list Q,
    feature_dist_m <$> fc_features demo_within_response = Some <$> ds /\
    StronglySorted Qle ds.
Proof.
  split; [vm_compute; reflexivity|].
  apply (proj1 (distance_results_ordered (E := demo)
                  demo_within_request demo_within_response)).
  vm_compute. reflexivity.
Defined.

(** C4 (as stated) fails for nearest neighbours.  From (30 E, 60 N) the
    feature 0.9 degrees to the north is nearer in the plane than the one
    1 degree to the east, and is returned first, although it reports the
    greater geodesic distance (about 100 km against about 56 km). *)
Lemma knn_dist_m_not_sorted :
  exists (fc : json) (d1 d2 : Q),
    knn (E := demo) demo_knn_request = Return fc /\
    feature_dist_m <$> fc_features fc = [Some d1; Some d2] /\
    (d2 < d1)%Q /\
    ~ StronglySorted Qle [d1; d2].
Proof.
  exists (rows_to_featurecollection
            (select_with_dist (E := demo) (Demo.Pt (30000000, 60000000))
               <$> reverse (Demo.rows FEATURES_TABLE)) GEOM_KEY),
    (10018800000 # 100000)%Q, (5566000000 # 100000)%Q.
  split; [vm_compute; reflexivity|].
  split; [vm_compute; reflexivity|].
  split; [reflexivity|].
  intros Hs. apply StronglySorted_inv in Hs as [_ Hall].
  apply Forall_cons in Hall as [Hle _]. revert Hle. vm_compute. auto.
Qed.

(** * Further properties of the adapter *)

(** X1. [one_geom_to_feature] keeps the geometry it is given; the
    properties default to the empty mapping when omitted and are otherwise
    the mapping that was passed, an empty one included. *)
Theorem one_geom_to_feature_properties (geom : json) :
  one_geom_to_feature geom JNull = Feature geom (JObj ∅) /\
  forall m : gmap string json,
    one_geom_to_feature geom (JObj m) = Feature geom (JObj m).
Proof.
  split; [reflexivity|]. intros m.
  unfold one_geom_to_feature, Py.or_else. simpl.
  destruct (Nat.eqb (size m) 0) eqn:Hs; simpl; [|reflexivity].
  apply Nat.eqb_eq, map_size_empty_iff in Hs. now subst m.
Qed.

Lemma features_of_rows (rows : list (gmap string json)) (geom_key : string) :
  fc_features (rows_to_featurecollection rows geom_key) =
  omap (feature_of_row geom_key) rows.
Proof. now rewrite rows_to_featurecollection_omap. Qed.

Lemma omap_app_list {A B : Type} (f : A -> option B) (l1 l2 : list A) :
  omap f (l1 ++ l2)%list = (omap f l1 ++ omap f l2)%list.
Proof.
  induction l1 as [|x l1 IH]; [reflexivity|].
  change (omap f ((x :: l1) ++ l2)%list)
    with (match f x with
          | Some y => y :: omap f (l1 ++ l2)%list
          | None => omap f (l1 ++ l2)%list
          end).
  change (omap f (x :: l1))
    with (match f x with Some y => y :: omap f l1 | None => omap f l1 end).
  rewrite IH. now destruct (f x).
Qed.

(** X2. The features of two batches of rows, one after the other, are the
    features of the first batch followed by those of the second; the number
    of features is the number of rows that carry a geometry, so never more
    than the number of rows, and no rows give no features. *)
Theorem rows_to_featurecollection_app
    (rows1 rows2 : list (gmap string json)) (geom_key : string) :
  fc_features (rows_to_featurecollection (rows1 ++ rows2)%list geom_key) =
    (fc_features (rows_to_featurecollection rows1 geom_key) ++
     fc_features (rows_to_featurecollection rows2 geom_key))%list /\
  length (fc_features (rows_to_featurecollection rows1 geom_key)) =
    length (filter (has_geometry geom_key) rows1) /\
  (length (fc_features (rows_to_featurecollection rows1 geom_key)) <= length rows1)%nat /\
  rows_to_featurecollection [] geom_key = FeatureCollection [].
Proof.
  rewrite !features_of_rows. split; [apply omap_app_list|].
  rewrite omap_feature_of_row, length_fmap.
  split; [reflexivity|]. split; [apply length_filter | reflexivity].
Qed.

(** X3. What the adapter builds, it reads back: parsing a Feature made by
    [one_geom_to_feature] returns its geometry, whatever the properties,
    and every feature of a FeatureCollection built from rows parses to its
    own geometry.  A FeatureCollection itself is passed through unchanged,
    as any mapping with a [type] other than ["Feature"] is. *)
Theorem parse_reads_back (json_loads : string -> option json) :
  (forall geom props : json,
     parse_geojson_geometry json_loads (one_geom_to_feature geom props) = Return geom) /\
  (forall (rows : list (gmap string json)) (geom_key : string),
     Forall (fun f => parse_geojson_geometry json_loads f = Return (feature_geometry f))
       (fc_features (rows_to_featurecollection rows geom_key))) /\
  (forall features : list json,
     parse_geojson_geometry json_loads (FeatureCollection features) =
     Return (FeatureCollection features)).
Proof.
  assert (HF : forall geom props,
             parse_geojson_geometry json_loads (Feature geom props) = Return geom).
  { intros geom props. unfold Feature. simpl.
    rewrite lookup_insert_eq. simpl. unfold Py.get.
    rewrite lookup_insert_ne by discriminate. now rewrite lookup_insert_eq. }
  split; [|split].
  - intros geom props. apply HF.
  - intros rows geom_key. rewrite features_of_rows, omap_feature_of_row.
    apply Forall_fmap, Forall_forall. intros r _. unfold compose.
    now rewrite HF, feature_geometry_Feature.
  - intros features. unfold FeatureCollection. simpl.
    now rewrite lookup_insert_eq.
Qed.

(** X4. A string input stands for the mapping it decodes to, and is decoded
    once only: a string that decodes to a mapping is parsed as that
    mapping, a string that decodes to another string (a doubly encoded
    geometry) or to [null] is rejected as invalid, and a string that does
    not decode raises the decoder's error. *)
Theorem parse_string_input (json_loads : string -> option json) (s : string) :
  (forall m, json_loads s = Some (JObj m) ->
     parse_geojson_geometry json_loads (JStr s) =
     parse_geojson_geometry json_loads (JObj m)) /\
  (forall s', json_loads s = Some (JStr s') ->
     parse_geojson_geometry json_loads (JStr s) =
     Raise (ValueError "Invalid GeoJSON: must be a dict with a 'type' field")) /\
  (json_loads s = Some JNull ->
     parse_geojson_geometry json_loads (JStr s) =
     Raise (ValueError "Invalid GeoJSON: must be a dict with a 'type' field")) /\
  (json_loads s = None ->
     parse_geojson_geometry json_loads (JStr s) = Raise JSONDecodeError).
Proof.
  repeat split.
  - intros m H. simpl. now rewrite H.
  - intros s' H. simpl. now rewrite H.
  - intros H. simpl. now rewrite H.
  - intros H. simpl. now rewrite H.
Qed.

Lemma parse_string_input_witness :
  parse_geojson_geometry Demo.loads (JStr "{}") =
    parse_geojson_geometry Demo.loads (JObj ∅) /\
  parse_geojson_geometry Demo.loads (JStr "[") = Raise JSONDecodeError.
Proof.
  destruct (parse_string_input Demo.loads "{}") as (H1 & _).
  destruct (parse_string_input Demo.loads "[") as (_ & _ & _ & H4).
  split; [apply H1; reflexivity | apply H4; reflexivity].
Defined.

(** * Further properties of the handlers *)

Section Results.

Context `{E : PostGIS}.

Lemma sql_where_has_geometry (p : geometry -> bool) (rows : list (stored geometry)) :
  Forall (fun r => exists g, s_geom r = Some g /\ p g = true) (sql_where p rows).
Proof.
  apply Forall_forall. intros r Hr. apply list_elem_of_filter in Hr as [Hp _].
  unfold geom_satisfies in Hp. destruct (s_geom r) as [g|]; [eauto | contradiction].
Qed.

Lemma delete_select_basic (r : stored geometry) :
  delete GEOM_KEY (select_basic r) = basic_properties r.
Proof.
  unfold select_basic, basic_properties, GEOM_KEY.
  rewrite !(delete_insert_ne _ "geom_geojson") by discriminate.
  now rewrite delete_insert_eq, delete_empty.
Qed.

Lemma delete_select_full (r : stored geometry) :
  delete GEOM_KEY (select_full r) = full_properties r.
Proof.
  unfold select_full, full_properties, GEOM_KEY.
  rewrite !(delete_insert_ne _ "geom_geojson") by discriminate.
  now rewrite delete_insert_eq, delete_empty.
Qed.

Lemma get_select_basic (r : stored geometry) :
  Py.get (select_basic r) GEOM_KEY = geojson_col (s_geom r).
Proof.
  unfold Py.get, select_basic, GEOM_KEY.
  rewrite !lookup_insert_ne by discriminate. now rewrite lookup_insert_eq.
Qed.

Lemma get_select_full (r : stored geometry) :
  Py.get (select_full r) GEOM_KEY = geojson_col (s_geom r).
Proof.
  unfold Py.get, select_full, GEOM_KEY.
  rewrite !lookup_insert_ne by discriminate. now rewrite lookup_insert_eq.
Qed.

(** Rows that all have a geometry give one feature each. *)
Lemma features_of_select (select : stored geometry -> gmap string json)
    (props : stored geometry -> gmap string json) (rows : list (stored geometry)) :
  (forall r, Py.get (select r) GEOM_KEY = geojson_col (s_geom r)) ->
  (forall r, delete GEOM_KEY (select r) = props r) ->
  Forall (fun r => is_Some (s_geom r)) rows ->
  rows_to_featurecollection (select <$> rows) GEOM_KEY =
  FeatureCollection
    ((fun r => Feature (geojson_col (s_geom r)) (JObj (props r))) <$> rows).
Proof.
  intros Hget Hdel Hall. rewrite rows_to_featurecollection_omap. f_equal.
  induction Hall as [|r rows [g Hg] _ IH]; [reflexivity|].
  rewrite !fmap_cons.
  change (omap (feature_of_row GEOM_KEY) (select r :: (select <$> rows)))
    with (match feature_of_row GEOM_KEY (select r) with
          | Some f => f :: omap (feature_of_row GEOM_KEY) (select <$> rows)
          | None => omap (feature_of_row GEOM_KEY) (select <$> rows)
          end).
  rewrite IH. unfold feature_of_row. rewrite Hget, Hdel, Hg. reflexivity.
Qed.

(** One selection, [WHERE] then [LIMIT] without [ORDER BY], shaped by the
    adapter.  Which of the matching rows come back, and in which order, is
    the engine's choice; how many come back is not. *)
Lemma limited_selection (select : stored geometry -> gmap string json)
    (props : stored geometry -> gmap string json) (p : geometry -> bool)
    (sql : statement) (params : list json)
    (tbl : list (stored geometry)) (limit : Z) (sel : list (stored geometry)) :
  (forall r, Py.get (select r) GEOM_KEY = geojson_col (s_geom r)) ->
  (forall r, delete GEOM_KEY (select r) = props r) ->
  sql_limit limit (unordered sql params (sql_where p tbl)) = Return sel ->
  0 <= limit <= LIMIT_MAX /\
  rows_to_featurecollection (select <$> sel) GEOM_KEY =
    FeatureCollection
      ((fun r => Feature (geojson_col (s_geom r)) (JObj (props r))) <$> sel) /\
  sel ⊆+ sql_where p tbl /\
  length sel = Nat.min (Z.to_nat limit) (length (sql_where p tbl)) /\
  Forall (fun r => r ∈ tbl /\ exists g, s_geom r = Some g /\ p g = true) sel.
Proof.
  intros Hget Hdel Hsel. apply sql_limit_Return in Hsel as [Hlim ->].
  pose proof (unordered_Permutation sql params (sql_where p tbl)) as Hperm.
  set (l := unordered sql params (sql_where p tbl)) in *.
  assert (Hsub : take (Z.to_nat limit) l ⊆+ sql_where p tbl).
  { transitivity l;
      [apply sublist_submseteq, sublist_take | now apply Permutation_submseteq]. }
  assert (Hall : Forall (fun r => r ∈ tbl /\ exists g, s_geom r = Some g /\ p g = true)
                   (take (Z.to_nat limit) l)).
  { apply Forall_forall. intros r Hr.
    eapply elem_of_submseteq in Hr; [|exact Hsub]. split.
    - now apply list_elem_of_filter in Hr as [_ Hr].
    - revert r Hr. apply Forall_forall, sql_where_has_geometry. }
  split; [exact Hlim|]. split.
  { apply features_of_select; auto.
    eapply Forall_impl; [exact Hall|]. intros r (_ & g & Hg & _). eauto. }
  split; [exact Hsub|]. split; [|exact Hall].
  rewrite length_take. now rewrite (Permutation_length Hperm).
Qed.

(** A selection from no rows is empty. *)
Lemma unordered_nil (sql : statement) (params : list json) :
  unordered sql params [] = [].
Proof. apply Permutation_nil_r, unordered_Permutation. Qed.

End Results.

(** X5. A successful point-in-polygon response lists rows of the selected
    table whose geometry is polygonal and covers the query point: all of
    them when there are at most [limit], and otherwise [limit] of them.
    The statement has no [ORDER BY], so which rows those are, and in which
    order they come, is the engine's choice; no row is listed more often
    than it is stored.  Each feature carries the GeoJSON of its row and
    exactly the properties [id] and [name] ([name] being [''] rather than
    null).  A [limit] that succeeds fits the engine's bigint. *)
Theorem point_in_polygon_result `{E : PostGIS} (payload : gmap string json) (fc : json) :
  point_in_polygon payload = Return fc ->
  exists (pt : geometry) (source : string) (limit : Z) (rows : list (stored geometry)),
    query_point (Py.get payload "lon") (Py.get payload "lat") = Return pt /\
    Py.call_lower (Py.or_else (Py.get payload "source") (JStr "features")) =
      Return source /\
    Py.int (Py.get_default payload "limit" (JInt 200)) = Return limit /\
    0 <= limit <= LIMIT_MAX /\
    fc = FeatureCollection (basic_feature <$> rows) /\
    rows ⊆+ sql_where (covers_point pt) (table_rows (table_of_source source)) /\
    length rows =
      Nat.min (Z.to_nat limit)
        (length (sql_where (covers_point pt) (table_rows (table_of_source source)))) /\
    Forall (fun r =>
              r ∈ table_rows (table_of_source source) /\
              exists g, s_geom r = Some g /\
                        GeometryType_polygonal g = true /\ ST_Covers g pt = true) rows.
Proof.
  unfold point_in_polygon. intros H.
  apply bind_Return in H as (source & Hsource & H).
  apply bind_Return in H as (limit & Hlimit & H).
  destruct (_ || _) in H; [discriminate|].
  apply bind_Return in H as (rows & Hrows & H). injection H as <-.
  unfold pip_sql in Hrows.
  apply bind_Return in Hrows as (pt & Hpt & Hrows).
  apply bind_Return in Hrows as (sel & Hsel & Hrows). injection Hrows as <-.
  apply (limited_selection select_basic basic_properties) in Hsel
    as (Hlim & Hfc & Hsub & Hlen & Hall);
    [|apply get_select_basic | apply delete_select_basic].
  exists pt, source, limit, sel.
  split; [exact Hpt|]. split; [exact Hsource|]. split; [exact Hlimit|].
  split; [exact Hlim|]. split; [exact Hfc|]. split; [exact Hsub|].
  split; [exact Hlen|].
  eapply Forall_impl; [exact Hall|]. intros r (Hin & g & Hg & Hp).
  apply andb_true_iff in Hp as [Hp1 Hp2]. eauto 10.
Qed.

(** Both stored regions hold (30 E, 60 N); with [limit = 1] the concrete
    engine returns the second of them. *)
Lemma point_in_polygon_result_witness :
  point_in_polygon (E := demo) demo_regions_request = Return demo_regions_response /\
  exists (pt : Demo.geom) (source : string) (limit : Z) (rows : list (stored Demo.geom)),
    query_point (E := demo) (Py.get demo_regions_request "lon")
      (Py.get demo_regions_request "lat") = Return pt /\
    Py.call_lower (Py.or_else (Py.get demo_regions_request "source") (JStr "features")) =
      Return source /\
    Py.int (Py.get_default demo_regions_request "limit" (JInt 200)) = Return limit /\
    0 <= limit <= LIMIT_MAX /\
    demo_regions_response = FeatureCollection (basic_feature (E := demo) <$> rows) /\
    rows ⊆+ sql_where (E := demo) (covers_point (E := demo) pt)
              (Demo.rows (table_of_source source)) /\
    length rows =
      Nat.min (Z.to_nat limit)
        (length (sql_where (E := demo) (covers_point (E := demo) pt)
                   (Demo.rows (table_of_source source)))) /\
    Forall (fun r =>
              r ∈ Demo.rows (table_of_source source) /\
              exists g, s_geom r = Some g /\
                        Demo.polygonal g = true /\ Demo.covers g pt = true) rows.
Proof.
  split; [vm_compute; reflexivity|].
  apply (point_in_polygon_result (E := demo) demo_regions_request demo_regions_response).
  vm_compute. reflexivity.
Defined.

Lemma sql_where_none `{E : PostGIS} (p : geometry -> bool) (rows : list (stored geometry)) :
  Forall (fun r => forall g, s_geom r = Some g -> p g = false) rows ->
  sql_where p rows = [].
Proof.
  intros H. apply filter_none. eapply Forall_impl; [exact H|].
  intros r Hr Hsat. unfold geom_satisfies in Hsat. simpl in Hr.
  destruct (s_geom r) as [g|] eqn:Hg; [|contradiction].
  rewrite (Hr g eq_refl) in Hsat. discriminate.
Qed.

(** X6. A point-in-polygon request with [lon] and [lat], whose optional
    parameters coerce and whose point the engine accepts, succeeds with the
    empty FeatureCollection when [limit] is 0, and also when [limit] is a
    count the engine accepts (not negative, and within its bigint) and no
    stored polygon covers the point. *)
Theorem point_in_polygon_empty `{E : PostGIS} (payload : gmap string json)
    (pt : geometry) (source : string) (limit : Z) :
  Py.get payload "lon" <> JNull ->
  Py.get payload "lat" <> JNull ->
  Py.call_lower (Py.or_else (Py.get payload "source") (JStr "features")) = Return source ->
  Py.int (Py.get_default payload "limit" (JInt 200)) = Return limit ->
  query_point (Py.get payload "lon") (Py.get payload "lat") = Return pt ->
  limit = 0 \/
  (0 <= limit <= LIMIT_MAX /\
   Forall (fun r => forall g, s_geom r = Some g -> covers_point pt g = false)
     (table_rows (table_of_source source))) ->
  point_in_polygon payload = Return (FeatureCollection []).
Proof.
  intros Hlon Hlat Hsource Hlimit Hpt Hcase.
  unfold point_in_polygon, pip_sql. rewrite Hsource, Hlimit.
  apply is_None_false in Hlon, Hlat. rewrite Hlon, Hlat, Hpt.
  cbn [bind orb]. fold (covers_point pt).
  destruct Hcase as [-> | [Hlim Hnone]].
  - reflexivity.
  - rewrite (sql_where_none _ _ Hnone), unordered_nil.
    unfold sql_limit.
    destruct ((limit <? 0) || (LIMIT_MAX <? limit)) eqn:Hb;
      [|now rewrite take_nil].
    apply orb_true_iff in Hb as [Hb|Hb]; apply Z.ltb_lt in Hb; lia.
Qed.

(** A point far from everything stored. *)
Lemma point_in_polygon_empty_witness :
  point_in_polygon (E := demo) demo_pip_request = Return (FeatureCollection []).
Proof.
  apply (point_in_polygon_empty (E := demo) demo_pip_request
           (Demo.Pt (200000000, 200000000)) "features" 200);
    try discriminate; try reflexivity.
  right. split; [unfold LIMIT_MAX; lia|].
  repeat (constructor; [intros g [= <-]; reflexivity|]). constructor.
Defined.

(** X7. A successful intersects response lists rows of the selected table
    whose geometry intersects the parsed query geometry: all of them when
    there are at most [limit], and otherwise [limit] of them, chosen and
    ordered by the engine (the statement has no [ORDER BY]); no row is
    listed more often than it is stored.  Each feature has the properties
    [id] and [name]; when the engine reads the query geometry as NULL the
    response is empty. *)
Theorem polygon_intersects_result `{E : PostGIS} (json_loads : string -> option json)
    (payload : gmap string json) (fc : json) :
  polygon_intersects json_loads payload = Return fc ->
  exists (geom : json) (q : option geometry) (source : string) (limit : Z)
         (rows : list (stored geometry)),
    parse_geojson_geometry json_loads (Py.get payload "geojson") = Return geom /\
    query_geom geom = Return q /\
    Py.call_lower (Py.or_else (Py.get payload "source") (JStr "features")) =
      Return source /\
    Py.int (Py.get_default payload "limit" (JInt 500)) = Return limit /\
    0 <= limit <= LIMIT_MAX /\
    fc = FeatureCollection (basic_feature <$> rows) /\
    rows ⊆+ sql_where (intersects_query q) (table_rows (table_of_source source)) /\
    length rows =
      Nat.min (Z.to_nat limit)
        (length (sql_where (intersects_query q) (table_rows (table_of_source source)))) /\
    Forall (fun r =>
              r ∈ table_rows (table_of_source source) /\
              exists g qg, s_geom r = Some g /\ q = Some qg /\
                           ST_Intersects g qg = true) rows /\
    (q = None -> fc = FeatureCollection []).
Proof.
  unfold polygon_intersects. intros H.
  apply bind_Return in H as (geom & Hgeom & H).
  apply bind_Return in H as (source & Hsource & H).
  apply bind_Return in H as (limit & Hlimit & H).
  apply bind_Return in H as (rows & Hrows & H). injection H as <-.
  unfold intersects_sql in Hrows.
  apply bind_Return in Hrows as (q & Hq & Hrows).
  apply bind_Return in Hrows as (sel & Hsel & Hrows). injection Hrows as <-.
  fold (intersects_query q) in Hsel.
  apply (limited_selection select_basic basic_properties) in Hsel
    as (Hlim & Hfc & Hsub & Hlen & Hall);
    [|apply get_select_basic | apply delete_select_basic].
  assert (Hall' :
    Forall (fun r =>
              r ∈ table_rows (table_of_source source) /\
              exists g qg, s_geom r = Some g /\ q = Some qg /\
                           ST_Intersects g qg = true) sel).
  { eapply Forall_impl; [exact Hall|]. intros r (Hin & g & Hg & Hp).
    split; [exact Hin|]. destruct q as [qg|]; [eauto | discriminate]. }
  exists geom, q, source, limit, sel.
  split; [exact Hgeom|]. split; [exact Hq|]. split; [exact Hsource|].
  split; [exact Hlimit|]. split; [exact Hlim|]. split; [exact Hfc|].
  split; [exact Hsub|]. split; [exact Hlen|]. split; [exact Hall'|].
  intros ->. rewrite Hfc.
  destruct sel as [|r rest]; [reflexivity|].
  apply Forall_cons in Hall' as [(_ & g & qg & _ & Hq' & _) _]. discriminate.
Qed.

(** A rectangle that holds both stored features. *)
Lemma polygon_intersects_result_witness :
  polygon_intersects (E := demo) Demo.loads demo_intersects_request =
    Return demo_intersects_response /\
  exists (geom : json) (q : option Demo.geom) (source : string) (limit : Z)
         (rows : list (stored Demo.geom)),
    parse_geojson_geometry Demo.loads (Py.get demo_intersects_request "geojson") =
      Return geom /\
    query_geom (E := demo) geom = Return q /\
    Py.call_lower (Py.or_else (Py.get demo_intersects_request "source") (JStr "features")) =
      Return source /\
    Py.int (Py.get_default demo_intersects_request "limit" (JInt 500)) = Return limit /\
    0 <= limit <= LIMIT_MAX /\
    demo_intersects_response = FeatureCollection (basic_feature (E := demo) <$> rows) /\
    rows ⊆+ sql_where (E := demo) (intersects_query (E := demo) q)
              (Demo.rows (table_of_source source)) /\
    length rows =
      Nat.min (Z.to_nat limit)
        (length (sql_where (E := demo) (intersects_query (E := demo) q)
                   (Demo.rows (table_of_source source)))) /\
    Forall (fun r =>
              r ∈ Demo.rows (table_of_source source) /\
              exists g qg, s_geom r = Some g /\ q = Some qg /\
                           Demo.intersects g qg = true) rows /\
    (q = None -> demo_intersects_response = FeatureCollection []).
Proof.
  split; [vm_compute; reflexivity|].
  apply (polygon_intersects_result (E := demo) Demo.loads demo_intersects_request).
  vm_compute. reflexivity.
Defined.

Section DistanceResults.

Context `{E : PostGIS}.

Lemma delete_select_with_dist (pt : geometry) (r : stored geometry) :
  delete GEOM_KEY (select_with_dist pt r) =
  <["dist_m" := float8_col (dist_m_of pt r)]> (full_properties r).
Proof.
  unfold select_with_dist. rewrite delete_insert_ne by discriminate.
  now rewrite delete_select_full.
Qed.

Lemma elem_of_take_order_by (key : stored geometry -> option Q) (n : nat)
    (rows : list (stored geometry)) (r : stored geometry) :
  r ∈ take n (order_by key rows) -> r ∈ rows.
Proof.
  intros Hr. apply (subseteq_take n) in Hr.
  now rewrite (order_by_Permutation key rows) in Hr.
Qed.

(** Rows without a geometry sort after all rows with one, so that cutting
    the ordered rows and dropping the rows without geometry commute. *)
Lemma filter_take_nulls_last (key : stored geometry -> option Q) (n : nat)
    (l : list (stored geometry)) :
  (forall r, is_Some (key r) <-> is_Some (s_geom r)) ->
  StronglySorted (fun x y => nulls_last_le (key x) (key y)) l ->
  filter (fun r => is_Some (s_geom r)) (take n l) =
  take n (filter (fun r => is_Some (s_geom r)) l).
Proof.
  intros Hkey Hs. revert n. induction Hs as [|x l Hs IH Hall]; intros n.
  - destruct n; reflexivity.
  - destruct n as [|n]; [reflexivity|].
    change (take (S n) (x :: l)) with (x :: take n l). rewrite !filter_cons.
    destruct (decide (is_Some (s_geom x))) as [Hx|Hx].
    + rewrite IH. reflexivity.
    + assert (Hnone : filter (fun r => is_Some (s_geom r)) l = []).
      { apply filter_none. eapply Forall_impl; [exact Hall|].
        intros y Hxy Hy. simpl in Hxy. apply Hkey in Hy as [d Hd].
        rewrite Hd in Hxy. destruct (key x) as [dx|] eqn:Hkx; [|contradiction].
        apply Hx, Hkey. eauto. }
      rewrite Hnone, take_nil. apply filter_none.
      apply Forall_forall. intros y Hy Hgy.
      apply (subseteq_take n) in Hy.
      assert (y ∈ filter (fun r => is_Some (s_geom r)) l)
        by (apply list_elem_of_filter; auto).
      rewrite Hnone in H. now apply not_elem_of_nil in H.
Qed.

Lemma knn_key_is_Some (pt : geometry) (r : stored geometry) :
  is_Some (knn_key pt r) <-> is_Some (s_geom r).
Proof. unfold knn_key. now rewrite fmap_is_Some. Qed.

End DistanceResults.

(** X8. A successful within-distance response holds exactly
    min(limit, number of stored features within the radius) features; each
    comes from a stored row whose geometry the engine finds within
    [radius_m] of the point, and carries the row's [id], [osmid],
    [element_type], [name] and [tags] together with [dist_m], the geodesic
    distance of that geometry from the point. *)
Theorem within_distance_result `{E : PostGIS} (payload : gmap string json) (fc : json) :
  within_distance payload = Return fc ->
  exists (pt : geometry) (radius : Q) (limit : Z) (rows : list (stored geometry)),
    query_point (Py.get payload "lon") (Py.get payload "lat") = Return pt /\
    bind_float8 (Py.get payload "radius_m") = DbOk radius /\
    Py.int (Py.get_default payload "limit" (JInt 500)) = Return limit /\
    0 <= limit /\
    fc = FeatureCollection (dist_feature pt <$> rows) /\
    length rows =
      Nat.min (Z.to_nat limit)
        (length (sql_where (fun g => ST_DWithin_geography g pt radius)
                   (table_rows FEATURES_TABLE))) /\
    Forall (fun r =>
              r ∈ table_rows FEATURES_TABLE /\
              exists g, s_geom r = Some g /\
                        ST_DWithin_geography g pt radius = true /\
                        feature_properties (dist_feature pt r) =
                          <["dist_m" := JFloat (ST_Distance_geography g pt)]>
                            (full_properties r)) rows.
Proof.
  unfold within_distance. intros H.
  apply bind_Return in H as (limit & Hlimit & H).
  destruct (_ || _) in H; [discriminate|].
  apply bind_Return in H as (rows & Hrows & H). injection H as <-.
  unfold within_distance_sql in Hrows.
  apply bind_Return in Hrows as (pt & Hpt & Hrows).
  apply bind_Return in Hrows as (radius & Hradius & Hrows).
  apply bind_Return in Hrows as (sel & Hsel & Hrows). injection Hrows as <-.
  apply sql_limit_Return in Hsel as [[Hneg _] ->].
  destruct (bind_float8 (Py.get payload "radius_m")) as [radius'|] eqn:Hb;
    [|discriminate]. injection Hradius as ->.
  set (within := sql_where (fun g => ST_DWithin_geography g pt radius)
                   (table_rows FEATURES_TABLE)).
  set (rows := take (Z.to_nat limit) (order_by (dist_m_of pt) within)).
  assert (Hall : Forall (fun r => r ∈ table_rows FEATURES_TABLE /\
                   exists g, s_geom r = Some g /\
                             ST_DWithin_geography g pt radius = true) rows).
  { apply Forall_forall. intros r Hr. apply elem_of_take_order_by in Hr.
    apply list_elem_of_filter in Hr as [Hsat Hin]. split; [exact Hin|].
    unfold geom_satisfies in Hsat. destruct (s_geom r) as [g|]; [eauto|contradiction]. }
  exists pt, radius, limit, rows. repeat split; auto.
  - apply (features_of_select (select_with_dist pt)
             (fun r => delete GEOM_KEY (select_with_dist pt r)));
      [apply get_select_with_dist | reflexivity |].
    eapply Forall_impl; [exact Hall|]. intros r (_ & g & Hg & _). eauto.
  - unfold rows. rewrite length_take.
    now rewrite (Permutation_length (order_by_Permutation (dist_m_of pt) within)).
  - eapply Forall_impl; [exact Hall|]. intros r (Hin & g & Hg & Hw).
    split; [exact Hin|]. exists g. repeat split; auto.
    unfold dist_feature. rewrite feature_properties_Feature, delete_select_with_dist.
    unfold dist_m_of. now rewrite Hg.
Qed.

Lemma within_distance_result_witness :
  exists (pt : Demo.geom) (radius : Q) (limit : Z) (rows : list (stored Demo.geom)),
    query_point (E := demo) (Py.get demo_within_request "lon")
      (Py.get demo_within_request "lat") = Return pt /\
    Demo.float8 (Py.get demo_within_request "radius_m") = DbOk radius /\
    Py.int (Py.get_default demo_within_request "limit" (JInt 500)) = Return limit /\
    0 <= limit /\
    demo_within_response = FeatureCollection (dist_feature (E := demo) pt <$> rows) /\
    length rows =
      Nat.min (Z.to_nat limit)
        (length (sql_where (E := demo) (fun g => Qle_bool (Demo.geodesic g pt) radius)
                   (Demo.rows FEATURES_TABLE))) /\
    Forall (fun r =>
              r ∈ Demo.rows FEATURES_TABLE /\
              exists g, s_geom r = Some g /\
                        Qle_bool (Demo.geodesic g pt) radius = true /\
                        feature_properties (dist_feature (E := demo) pt r) =
                          <["dist_m" := JFloat (Demo.geodesic g pt)]>
                            (full_properties (E := demo) r)) rows.
Proof.
  apply (within_distance_result (E := demo) demo_within_request demo_within_response).
  vm_compute. reflexivity.
Defined.

(** X9. A successful nearest-neighbour response holds exactly
    min(k, number of stored features with a geometry) features: rows
    without geometry never take the place of rows that have one.  The rows
    returned and the rows left out together make up the stored features
    with a geometry, and no row left out is nearer to the point, in planar
    distance, than a row returned. *)
Theorem knn_result `{E : PostGIS} (payload : gmap string json) (fc : json) :
  knn payload = Return fc ->
  exists (pt : geometry) (k : Z) (rows rest : list (stored geometry)),
    query_point (Py.get payload "lon") (Py.get payload "lat") = Return pt /\
    Py.int (Py.get_default payload "k" (JInt 10)) = Return k /\
    0 <= k /\
    fc_features fc = dist_feature pt <$> rows /\
    length rows =
      Nat.min (Z.to_nat k)
        (length (filter (fun r => is_Some (s_geom r)) (table_rows FEATURES_TABLE))) /\
    (rows ++ rest)%list ≡ₚ
      filter (fun r => is_Some (s_geom r)) (table_rows FEATURES_TABLE) /\
    forall r r' g g',
      r ∈ rows -> r' ∈ rest -> s_geom r = Some g -> s_geom r' = Some g' ->
      (knn_distance g pt <= knn_distance g' pt)%Q.
Proof.
  intros H. apply knn_first_k in H
    as (pt & k & sorted & Hpt & Hk & Hpos & Hperm & Hsorted & -> & _).
  set (has := fun r : stored geometry => is_Some (s_geom r)).
  exists pt, k, (filter has (take (Z.to_nat k) sorted)),
    (filter has (drop (Z.to_nat k) sorted)).
  repeat split; auto.
  - apply features_of_selected.
  - unfold has. rewrite (filter_take_nulls_last (knn_key pt)), length_take;
      [|apply knn_key_is_Some | exact Hsorted].
    now rewrite Hperm.
  - rewrite <- filter_app, take_drop. now rewrite Hperm.
  - intros r r' g g' Hr Hr' Hg Hg'.
    apply list_elem_of_filter in Hr as [_ Hr], Hr' as [_ Hr'].
    rewrite <- (take_drop (Z.to_nat k) sorted) in Hsorted.
    pose proof (StronglySorted_app_1_elem_of _ _ _ _ _ Hsorted Hr Hr') as Hle.
    unfold knn_key in Hle. now rewrite Hg, Hg' in Hle.
Qed.

Lemma knn_result_witness :
  exists (pt : Demo.geom) (k : Z) (rows rest : list (stored Demo.geom)),
    query_point (E := demo) (Py.get demo_knn_request "lon")
      (Py.get demo_knn_request "lat") = Return pt /\
    Py.int (Py.get_default demo_knn_request "k" (JInt 10)) = Return k /\
    0 <= k /\
    fc_features
      (rows_to_featurecollection
         (select_with_dist (E := demo) (Demo.Pt (30000000, 60000000))
            <$> reverse (Demo.rows FEATURES_TABLE)) GEOM_KEY) =
      dist_feature (E := demo) pt <$> rows /\
    length rows =
      Nat.min (Z.to_nat k)
        (length (filter (fun r => is_Some (s_geom r)) (Demo.rows FEATURES_TABLE))) /\
    (rows ++ rest)%list ≡ₚ
      filter (fun r => is_Some (s_geom r)) (Demo.rows FEATURES_TABLE) /\
    forall r r' g g',
      r ∈ rows -> r' ∈ rest -> s_geom r = Some g -> s_geom r' = Some g' ->
      (Demo.planar g pt <= Demo.planar g' pt)%Q.
Proof.
  apply (knn_result (E := demo) demo_knn_request).
  vm_compute. reflexivity.
Defined.

(** X10. A successful buffer response pairs the buffer Feature, whose
    geometry is the engine's buffer around the point and whose only
    property is [buffer_m] exactly as the request gave it, with the hits:
    stored features whose geometry intersects that same buffer, each with
    all its attribute columns.  The hits are all such features when there
    are at most [limit], and otherwise [limit] of them, chosen and ordered
    by the engine (the statement has no [ORDER BY]); no row is listed more
    often than it is stored. *)
Theorem buffer_analysis_result `{E : PostGIS} (payload : gmap string json) (resp : json) :
  buffer_analysis payload = Return resp ->
  exists (pt : geometry) (radius : Q) (limit : Z) (rows : list (stored geometry)),
    query_point (Py.get payload "lon") (Py.get payload "lat") = Return pt /\
    bind_float8 (Py.get payload "buffer_m") = DbOk radius /\
    Py.int (Py.get_default payload "limit" (JInt 1000)) = Return limit /\
    0 <= limit <= LIMIT_MAX /\
    resp = JObj
      (<["buffer" :=
           Feature (JObj (ST_AsGeoJSON (ST_Buffer_geography pt radius)))
             (JObj (<["buffer_m" := Py.get payload "buffer_m"]> ∅))]>
      (<["hits" := FeatureCollection (full_feature <$> rows)]> ∅)) /\
    rows ⊆+ sql_where (fun g => ST_Intersects g (ST_Buffer_geography pt radius))
              (table_rows FEATURES_TABLE) /\
    length rows =
      Nat.min (Z.to_nat limit)
        (length (sql_where (fun g => ST_Intersects g (ST_Buffer_geography pt radius))
                   (table_rows FEATURES_TABLE))) /\
    Forall (fun r =>
              r ∈ table_rows FEATURES_TABLE /\
              exists g, s_geom r = Some g /\
                        ST_Intersects g (ST_Buffer_geography pt radius) = true) rows.
Proof.
  unfold buffer_analysis. intros H.
  apply bind_Return in H as (limit & Hlimit & H).
  destruct (_ || _) in H; [discriminate|].
  apply bind_Return in H as (buf_geom & Hbuf & H).
  apply bind_Return in H as (rows & Hrows & H). injection H as <-.
  unfold buffer_sql in Hbuf.
  apply bind_Return in Hbuf as (pt & Hpt & Hbuf).
  apply bind_Return in Hbuf as (radius & Hradius & Hbuf). injection Hbuf as <-.
  unfold hits_sql in Hrows. rewrite Hpt, Hradius in Hrows. simpl in Hrows.
  apply bind_Return in Hrows as (sel & Hsel & Hrows). injection Hrows as <-.
  apply (limited_selection select_full full_properties) in Hsel
    as (Hlim & Hfc & Hsub & Hlen & Hall);
    [|apply get_select_full | apply delete_select_full].
  destruct (bind_float8 (Py.get payload "buffer_m")) as [radius'|] eqn:Hb;
    [|discriminate]. injection Hradius as ->.
  exists pt, radius, limit, sel.
  split; [exact Hpt|]. split; [reflexivity|]. split; [exact Hlimit|].
  split; [exact Hlim|]. split.
  { rewrite one_geom_to_feature_insert, Hfc. reflexivity. }
  split; [exact Hsub|]. split; [exact Hlen | exact Hall].
Qed.

(** A buffer of 200 km around (30 E, 60 N) reaches both stored features. *)
Lemma buffer_analysis_result_witness :
  buffer_analysis (E := demo) demo_buffer_request = Return demo_buffer_response /\
  exists (pt : Demo.geom) (radius : Q) (limit : Z) (rows : list (stored Demo.geom)),
    query_point (E := demo) (Py.get demo_buffer_request "lon")
      (Py.get demo_buffer_request "lat") = Return pt /\
    Demo.float8 (Py.get demo_buffer_request "buffer_m") = DbOk radius /\
    Py.int (Py.get_default demo_buffer_request "limit" (JInt 1000)) = Return limit /\
    0 <= limit <= LIMIT_MAX /\
    demo_buffer_response = JObj
      (<["buffer" :=
           Feature (JObj (Demo.as_geojson (Demo.buffer pt radius)))
             (JObj (<["buffer_m" := Py.get demo_buffer_request "buffer_m"]> ∅))]>
      (<["hits" := FeatureCollection (full_feature (E := demo) <$> rows)]> ∅)) /\
    rows ⊆+ sql_where (E := demo) (fun g => Demo.intersects g (Demo.buffer pt radius))
              (Demo.rows FEATURES_TABLE) /\
    length rows =
      Nat.min (Z.to_nat limit)
        (length (sql_where (E := demo) (fun g => Demo.intersects g (Demo.buffer pt radius))
                   (Demo.rows FEATURES_TABLE))) /\
    Forall (fun r =>
              r ∈ Demo.rows FEATURES_TABLE /\
              exists g, s_geom r = Some g /\
                        Demo.intersects g (Demo.buffer pt radius) = true) rows.
Proof.
  split; [vm_compute; reflexivity|].
  apply (buffer_analysis_result (E := demo) demo_buffer_request demo_buffer_response).
  vm_compute. reflexivity.
Defined.

(** ** Union *)

Lemma omap_id_fmap {A B : Type} (f : A -> option B) (l : list A) :
  omap id (f <$> l) = omap f l.
Proof.
  induction l as [|x l IH]; [reflexivity|].
  rewrite fmap_cons.
  change (omap id (f x :: (f <$> l)))
    with (match f x with Some y => y :: omap id (f <$> l) | None => omap id (f <$> l) end).
  change (omap f (x :: l))
    with (match f x with Some y => y :: omap f l | None => omap f l end).
  now rewrite IH.
Qed.

(** X11. When [region_ids] is supplied and non-empty, [geoms] plays no
    part: whatever it holds, well-formed or not, the response is the one of
    the request without it. *)
Theorem union_region_ids_first `{E : PostGIS} (json_loads : string -> option json)
    (payload : gmap string json) (geoms : json) :
  Py.truthy (Py.get payload "region_ids") = true ->
  union_polygons json_loads (<["geoms" := geoms]> payload) =
  union_polygons json_loads (delete "geoms" payload).
Proof.
  intros Ht. unfold union_polygons.
  assert (Hd : Py.get (delete "geoms" payload) "region_ids" = Py.get payload "region_ids")
    by (unfold Py.get; now rewrite lookup_delete_ne).
  rewrite get_insert_ne by discriminate. rewrite Hd, Ht. reflexivity.
Qed.

Lemma union_region_ids_first_witness :
  union_polygons (E := demo) Demo.loads
    (<["geoms" := JInt 5]> (<["region_ids" := JList [JInt 7]]> ∅)) =
  union_polygons (E := demo) Demo.loads
    (delete "geoms" (<["region_ids" := JList [JInt 7]]> ∅)).
Proof.
  apply (union_region_ids_first (E := demo) Demo.loads
           (<["region_ids" := JList [JInt 7]]> ∅) (JInt 5)).
  reflexivity.
Defined.

(** X12. A union over [region_ids] that the engine accepts is answered from
    the stored regions whose id matches: with at least one matching region
    that has a geometry, the response is a Feature of their union with
    properties [source = "regions"] and [region_ids] as given; it is the
    404 exactly when no matching region has a geometry. *)
Theorem union_regions_result `{E : PostGIS} (json_loads : string -> option json)
    (payload : gmap string json) (matches : json -> bool) :
  Py.truthy (Py.get payload "region_ids") = true ->
  bind_id_array (Py.get payload "region_ids") = DbOk matches ->
  union_polygons json_loads payload =
  match omap s_geom
          (filter (fun r => matches (s_id r) = true) (table_rows REGIONS_TABLE)) with
  | [] => Raise (HTTPException 404 "No geometries found for given region_ids")
  | g :: gs =>
      Return (Feature (JObj (ST_AsGeoJSON (ST_Union_agg g gs)))
                (JObj (<["source" := JStr "regions"]>
                      (<["region_ids" := Py.get payload "region_ids"]> ∅))))
  end.
Proof.
  intros Ht Hb. unfold union_polygons, union_regions_sql. rewrite Ht, Hb. simpl.
  unfold sql_ST_Union. rewrite omap_id_fmap.
  destruct (omap s_geom _) as [|g gs]; simpl; [reflexivity|].
  now rewrite one_geom_to_feature_insert.
Qed.

Lemma union_regions_result_witness :
  union_polygons (E := demo) Demo.loads (<["region_ids" := JList [JInt 7; JInt 8]]> ∅) =
  Return (Feature
            (JObj (Demo.as_geojson (Demo.Box (28500000, 59500000) (30500000, 60500000))))
            (JObj (<["source" := JStr "regions"]>
                  (<["region_ids" := JList [JInt 7; JInt 8]]> ∅)))).
Proof.
  etransitivity.
  - apply (union_regions_result (E := demo) Demo.loads
             (<["region_ids" := JList [JInt 7; JInt 8]]> ∅)
             (fun id => existsb (Demo.same_int id) [JInt 7; JInt 8]));
      reflexivity.
  - vm_compute. reflexivity.
Defined.

Lemma mapM_Return_length {A B : Type} (f : A -> result B) (l : list A) (bs : list B) :
  mapM f l = Return bs -> length bs = length l.
Proof.
  revert bs. induction l as [|a l IH]; intros bs H; simpl in H.
  - now injection H as <-.
  - apply bind_Return in H as (b & _ & H).
    apply bind_Return in H as (bs' & Hbs' & H). injection H as <-.
    simpl. now rewrite (IH bs').
Qed.

Lemma mapM_Raise {A B : Type} (f : A -> result B) (l : list A) (e : exn) :
  mapM f l = Raise e -> exists a, a ∈ l /\ f a = Raise e.
Proof.
  induction l as [|a l IH]; intros H; simpl in H; [discriminate|].
  apply bind_Raise in H as [H|(b & _ & H)].
  - exists a. split; [apply list_elem_of_here | exact H].
  - apply bind_Raise in H as [H|(bs & _ & H)]; [|discriminate].
    destruct (IH H) as (a' & Hin & Ha'). exists a'.
    split; [now apply list_elem_of_further | exact Ha'].
Qed.

(** X13. A union over a non-empty [geoms] list (with no [region_ids]) is
    all or nothing: one element that does not parse fails the request with
    that element's [ValueError]; when all parse and the engine accepts
    them, the response is a Feature of their union with properties
    [source = "geoms"] and [count], the number of elements, even when the
    union is NULL (the geometry is then null; there is no 404 on this
    path).  No [HTTPException] is raised on this path. *)
Theorem union_geoms_result `{E : PostGIS} (json_loads : string -> option json)
    (payload : gmap string json) (geoms : list json) :
  Py.truthy (Py.get payload "region_ids") = false ->
  Py.get payload "geoms" = JList geoms ->
  geoms <> [] ->
  (forall e,
     mapM (parse_geojson_geometry json_loads) geoms = Raise e ->
     union_polygons json_loads payload = Raise e /\ is_ValueError e = true /\
     exists g, g ∈ geoms /\ parse_geojson_geometry json_loads g = Raise e) /\
  (forall geom_list gs,
     mapM (parse_geojson_geometry json_loads) geoms = Return geom_list ->
     mapM query_geom geom_list = Return gs ->
     union_polygons json_loads payload =
     Return (Feature (geojson_col (ST_Union_array gs))
               (JObj (<["source" := JStr "geoms"]>
                     (<["count" := JInt (Z.of_nat (length geoms))]> ∅))))) /\
  (forall e, union_polygons json_loads payload = Raise e -> is_HTTPException e = false).
Proof.
  intros Hr Hg Hne.
  assert (Ht : Py.truthy (JList geoms) = true) by (destruct geoms; [congruence|reflexivity]).
  unfold union_polygons, union_geoms_sql. rewrite Hr, Hg, Ht. simpl.
  split; [|split].
  - intros e He. rewrite He. simpl. split; [reflexivity|].
    apply mapM_Raise in He as (g & Hin & He).
    split; [now apply parse_geojson_geometry_Raise in He | eauto].
  - intros geom_list gs Hp Hq. rewrite Hp. simpl. rewrite Hq. simpl.
    rewrite one_geom_to_feature_insert.
    now rewrite (mapM_Return_length _ _ _ Hp).
  - intros e H.
    apply bind_Raise in H as [H|(geom_list & _ & H)].
    { apply mapM_Raise in H as (g & _ & H).
      apply parse_geojson_geometry_Raise in H. now destruct e. }
    apply bind_Raise in H as [H|(rows & Hrows & H)].
    { apply bind_Raise in H as [H|(gs & _ & H)]; [|discriminate].
      apply mapM_Raise in H as (g & _ & H). now apply query_geom_Raise in H as ->. }
    apply bind_Return in Hrows as (gs & _ & Hrows). injection Hrows as <-.
    discriminate.
Qed.

(** Two rectangles side by side, and a list whose second element has no
    [type]. *)
Lemma union_geoms_result_witness :
  union_polygons (E := demo) Demo.loads
    (<["geoms" := JList [demo_polygon 29 59 30 61; demo_polygon 30 59 31 61]]> ∅) =
    Return (Feature
              (JObj (Demo.as_geojson (Demo.Box (29000000, 59000000) (31000000, 61000000))))
              (JObj (<["source" := JStr "geoms"]> (<["count" := JInt 2]> ∅)))) /\
  union_polygons (E := demo) Demo.loads
    (<["geoms" := JList [demo_point 30 60; JObj ∅]]> ∅) =
    Raise (ValueError "Invalid GeoJSON: must be a dict with a 'type' field").
Proof.
  split.
  - destruct (union_geoms_result (E := demo) Demo.loads
                (<["geoms" := JList [demo_polygon 29 59 30 61; demo_polygon 30 59 31 61]]> ∅)
                [demo_polygon 29 59 30 61; demo_polygon 30 59 31 61])
      as (_ & H & _); [reflexivity | reflexivity | discriminate|].
    apply (H [demo_polygon 29 59 30 61; demo_polygon 30 59 31 61]
             [Some (Demo.Box (29000000, 59000000) (30000000, 61000000));
              Some (Demo.Box (30000000, 59000000) (31000000, 61000000))]);
      reflexivity.
  - destruct (union_geoms_result (E := demo) Demo.loads
                (<["geoms" := JList [demo_point 30 60; JObj ∅]]> ∅)
                [demo_point 30 60; JObj ∅])
      as (H & _); [reflexivity | reflexivity | discriminate|].
    apply H. reflexivity.
Defined.

(** ** Which requests are answered with a client error *)

(** A failing statement raises the driver's error and nothing else. *)
Ltac statement_error H :=
  repeat
    (first
       [ discriminate H
       | apply bind_Raise in H as [H|(? & _ & H)];
         [ first [ apply query_point_Raise in H
                 | apply query_geom_Raise in H
                 | apply sql_limit_Raise in H
                 | apply db_Raise in H ];
           exact H
         | ] ]).

Section StatementErrors.

Context `{E : PostGIS}.

Lemma within_distance_sql_Raise lon lat radius_m limit e :
  within_distance_sql lon lat radius_m limit = Raise e -> e = DatabaseError.
Proof. unfold within_distance_sql. intros H. statement_error H. Qed.

Lemma buffer_sql_Raise lon lat buffer_m e :
  buffer_sql lon lat buffer_m = Raise e -> e = DatabaseError.
Proof. unfold buffer_sql. intros H. statement_error H. Qed.

Lemma hits_sql_Raise lon lat buffer_m limit e :
  hits_sql lon lat buffer_m limit = Raise e -> e = DatabaseError.
Proof. unfold hits_sql. intros H. statement_error H. Qed.

Lemma knn_sql_Raise lon lat k e :
  knn_sql lon lat k = Raise e -> e = DatabaseError.
Proof. unfold knn_sql. intros H. statement_error H. Qed.

Lemma area_sql_Raise geom e : area_sql geom = Raise e -> e = DatabaseError.
Proof. unfold area_sql. intros H. statement_error H. Qed.

Lemma perimeter_sql_Raise geom e : perimeter_sql geom = Raise e -> e = DatabaseError.
Proof. unfold perimeter_sql. intros H. statement_error H. Qed.

Lemma intersection_sql_Raise ga gb e :
  intersection_sql ga gb = Raise e -> e = DatabaseError.
Proof. unfold intersection_sql. intros H. statement_error H. Qed.

Lemma transform_sql_Raise geom to_epsg e :
  transform_sql geom to_epsg = Raise e -> e = DatabaseError.
Proof.
  unfold transform_sql. intros H.
  apply bind_Raise in H as [H|(g & _ & H)]; [now apply query_geom_Raise in H|].
  apply bind_Raise in H as [H|(t & _ & H)]; [|discriminate].
  destruct g as [g|]; [|discriminate]. statement_error H.
Qed.

Lemma float_Raise (x : option Q) (e : exn) : Py.float x = Raise e -> e = TypeError.
Proof. destruct x; simpl; congruence. Qed.

Lemma is_None_true (v : json) : Py.is_None v = true <-> v = JNull.
Proof. destruct v; simpl; split; congruence. Qed.

End StatementErrors.

(** X14. The handlers that check their required fields answer with an
    [HTTPException] in one situation only, and then with status 400 and the
    fixed detail: a required field is absent or null (an explicit null
    counts as missing) and, for the handlers that coerce [limit], [k] or
    [source] first, that coercion went through.  Every other failure of
    these handlers is an unhandled exception. *)
Theorem client_error_iff `{E : PostGIS} (json_loads : string -> option json)
    (payload : gmap string json) (c : Z) (d : string) :
  (point_in_polygon payload = Raise (HTTPException c d) <->
     (exists s, Py.call_lower (Py.or_else (Py.get payload "source") (JStr "features"))
                = Return s) /\
     (exists n, Py.int (Py.get_default payload "limit" (JInt 200)) = Return n) /\
     (Py.get payload "lon" = JNull \/ Py.get payload "lat" = JNull) /\
     c = 400 /\ d = "lon/lat required") /\
  (within_distance payload = Raise (HTTPException c d) <->
     (exists n, Py.int (Py.get_default payload "limit" (JInt 500)) = Return n) /\
     (Py.get payload "lon" = JNull \/ Py.get payload "lat" = JNull \/
      Py.get payload "radius_m" = JNull) /\
     c = 400 /\ d = "lon/lat/radius_m required") /\
  (buffer_analysis payload = Raise (HTTPException c d) <->
     (exists n, Py.int (Py.get_default payload "limit" (JInt 1000)) = Return n) /\
     (Py.get payload "lon" = JNull \/ Py.get payload "lat" = JNull \/
      Py.get payload "buffer_m" = JNull) /\
     c = 400 /\ d = "lon/lat/buffer_m required") /\
  (knn payload = Raise (HTTPException c d) <->
     (exists n, Py.int (Py.get_default payload "k" (JInt 10)) = Return n) /\
     (Py.get payload "lon" = JNull \/ Py.get payload "lat" = JNull) /\
     c = 400 /\ d = "lon/lat required") /\
  (intersection json_loads payload = Raise (HTTPException c d) <->
     (Py.get payload "a" = JNull \/ Py.get payload "b" = JNull) /\
     c = 400 /\ d = "Provide a and b (GeoJSON geometry or Feature)").
Proof.
  split; [|split; [|split; [|split]]]; split.
  - intros H. pose proof (point_in_polygon_HTTPException _ _ _ H) as (Hc & Hd & Hm).
    unfold point_in_polygon in H.
    destruct (Py.call_lower _) as [s|e] eqn:Hs.
    2:{ apply call_lower_Raise in Hs as ->. discriminate. }
    destruct (Py.int _) as [n|e] eqn:Hn.
    2:{ simpl in H. injection H as ->. now apply int_Raise_not_HTTP in Hn. }
    eauto 10.
  - intros ((s & Hs) & (n & Hn) & Hm & -> & ->).
    unfold point_in_polygon. rewrite Hs, Hn. simpl.
    destruct Hm as [-> | ->]; [reflexivity|]. now rewrite orb_true_r.
  - unfold within_distance. intros H.
    destruct (Py.int _) as [n|e] eqn:Hn.
    2:{ simpl in H. injection H as ->. now apply int_Raise_not_HTTP in Hn. }
    simpl in H. destruct (_ || _) eqn:Hm.
    + injection H as <- <-. split; [eauto|]. split; [|auto].
      rewrite !orb_true_iff, !is_None_true in Hm. tauto.
    + apply bind_Raise in H as [H|(? & _ & H)]; [|discriminate].
      now apply within_distance_sql_Raise in H.
  - intros ((n & Hn) & Hm & -> & ->). unfold within_distance. rewrite Hn. simpl.
    destruct Hm as [-> | [-> | ->]]; rewrite ?orb_true_r; reflexivity.
  - unfold buffer_analysis. intros H.
    destruct (Py.int _) as [n|e] eqn:Hn.
    2:{ simpl in H. injection H as ->. now apply int_Raise_not_HTTP in Hn. }
    simpl in H. destruct (_ || _) eqn:Hm.
    + injection H as <- <-. split; [eauto|]. split; [|auto].
      rewrite !orb_true_iff, !is_None_true in Hm. tauto.
    + apply bind_Raise in H as [H|(? & _ & H)];
        [now apply buffer_sql_Raise in H|].
      apply bind_Raise in H as [H|(? & _ & H)]; [|discriminate].
      now apply hits_sql_Raise in H.
  - intros ((n & Hn) & Hm & -> & ->). unfold buffer_analysis. rewrite Hn. simpl.
    destruct Hm as [-> | [-> | ->]]; rewrite ?orb_true_r; reflexivity.
  - unfold knn. intros H.
    destruct (Py.int _) as [n|e] eqn:Hn.
    2:{ simpl in H. injection H as ->. now apply int_Raise_not_HTTP in Hn. }
    simpl in H. destruct (_ || _) eqn:Hm.
    + injection H as <- <-. split; [eauto|]. split; [|auto].
      rewrite !orb_true_iff, !is_None_true in Hm. tauto.
    + apply bind_Raise in H as [H|(? & _ & H)]; [|discriminate].
      now apply knn_sql_Raise in H.
  - intros ((n & Hn) & Hm & -> & ->). unfold knn. rewrite Hn. simpl.
    destruct Hm as [-> | ->]; rewrite ?orb_true_r; reflexivity.
  - unfold intersection. intros H. destruct (_ || _) eqn:Hm.
    + injection H as <- <-. split; [|auto].
      rewrite !orb_true_iff, !is_None_true in Hm. tauto.
    + apply bind_Raise in H as [H|(? & _ & H)].
      { apply parse_geojson_geometry_Raise in H. discriminate. }
      apply bind_Raise in H as [H|(? & _ & H)].
      { apply parse_geojson_geometry_Raise in H. discriminate. }
      apply bind_Raise in H as [H|(row & _ & H)];
        [now apply intersection_sql_Raise in H|].
      destruct (Py.is_None (fst row)); [discriminate|].
      apply bind_Raise in H as [H|(? & _ & H)]; [|discriminate].
      now apply float_Raise in H.
  - intros (Hm & -> & ->). unfold intersection.
    destruct Hm as [-> | ->]; rewrite ?orb_true_r; reflexivity.
Qed.

(** An explicit null [radius_m]; and a null [lat] hidden by a [limit] that
    does not convert. *)
Lemma client_error_iff_witness :
  within_distance (E := demo)
    (<["lon" := JInt 30]> (<["lat" := JInt 60]> (<["radius_m" := JNull]> ∅))) =
    Raise (HTTPException 400 "lon/lat/radius_m required") /\
  knn (E := demo) (<["lat" := JNull]> (<["k" := JList []]> ∅)) <>
    Raise (HTTPException 400 "lon/lat required").
Proof.
  split.
  - apply (client_error_iff (E := demo) Demo.loads
             (<["lon" := JInt 30]> (<["lat" := JInt 60]> (<["radius_m" := JNull]> ∅)))).
    split; [exists 500; reflexivity|]. split; [right; right; reflexivity|]. auto.
  - intros H.
    apply (client_error_iff (E := demo) Demo.loads
             (<["lat" := JNull]> (<["k" := JList []]> ∅))) in H
      as ((n & Hn) & _).
    discriminate Hn.
Defined.

Lemma iter_Raise (v : json) (e : exn) : Py.iter v = Raise e -> e = TypeError.
Proof. destruct v; simpl; congruence. Qed.

(** X15. The area, perimeter and transform handlers never answer with an
    [HTTPException]: whatever goes wrong, a missing or malformed geometry
    included, reaches the caller as another exception.  The union handler
    raises exactly two: the 404, only on the [region_ids] path, and the
    400, only when neither [region_ids] nor [geoms] is supplied and
    non-empty. *)
Theorem http_errors_of_geometry_handlers `{E : PostGIS}
    (json_loads : string -> option json) (payload : gmap string json) (e : exn) :
  (polygon_area json_loads payload = Raise e -> is_HTTPException e = false) /\
  (polygon_perimeter json_loads payload = Raise e -> is_HTTPException e = false) /\
  (transform json_loads payload = Raise e -> is_HTTPException e = false) /\
  (union_polygons json_loads payload = Raise e ->
     is_HTTPException e = false \/
     (e = HTTPException 404 "No geometries found for given region_ids" /\
      Py.truthy (Py.get payload "region_ids") = true) \/
     (e = HTTPException 400 "Provide region_ids or geoms" /\
      Py.truthy (Py.get payload "region_ids") = false /\
      Py.truthy (Py.get payload "geoms") = false)).
Proof.
  split; [|split; [|split]]; intros H.
  - unfold polygon_area in H.
    apply bind_Raise in H as [H|(geom & _ & H)].
    { now apply parse_geojson_geometry_not_HTTP in H. }
    apply bind_Raise in H as [H|(row & _ & H)].
    { now apply area_sql_Raise in H as ->. }
    apply bind_Raise in H as [H|(m2 & _ & H)].
    { now apply float_Raise in H as ->. }
    apply bind_Raise in H as [H|(km2 & _ & H)]; [|discriminate].
    now apply float_Raise in H as ->.
  - unfold polygon_perimeter in H.
    apply bind_Raise in H as [H|(geom & _ & H)].
    { now apply parse_geojson_geometry_not_HTTP in H. }
    apply bind_Raise in H as [H|(row & _ & H)].
    { now apply perimeter_sql_Raise in H as ->. }
    apply bind_Raise in H as [H|(m & _ & H)].
    { now apply float_Raise in H as ->. }
    apply bind_Raise in H as [H|(km & _ & H)]; [|discriminate].
    now apply float_Raise in H as ->.
  - unfold transform in H.
    apply bind_Raise in H as [H|(n & _ & H)]; [now apply int_Raise_not_HTTP in H|].
    apply bind_Raise in H as [H|(geom & _ & H)].
    { now apply parse_geojson_geometry_not_HTTP in H. }
    apply bind_Raise in H as [H|(row & _ & H)]; [|discriminate].
    now apply transform_sql_Raise in H as ->.
  - unfold union_polygons in H.
    destruct (Py.truthy (Py.get payload "region_ids")) eqn:Hr.
    + apply bind_Raise in H as [H|(rows & _ & H)].
      { left. unfold union_regions_sql in H.
        apply bind_Raise in H as [H|(? & _ & H)]; [|discriminate].
        now apply db_Raise in H as ->. }
      right. left. split; [|reflexivity].
      destruct (fetchone rows) as [[|v row]|]; try congruence.
      destruct (Py.is_None (item0 (v :: row))); congruence.
    + destruct (Py.truthy (Py.get payload "geoms")) eqn:Hg.
      * left.
        apply bind_Raise in H as [H|(items & _ & H)].
        { now apply iter_Raise in H as ->. }
        apply bind_Raise in H as [H|(geom_list & _ & H)].
        { apply mapM_Raise in H as (g & _ & H).
          now apply parse_geojson_geometry_not_HTTP in H. }
        apply bind_Raise in H as [H|(rows & _ & H)].
        { unfold union_geoms_sql in H.
          apply bind_Raise in H as [H|(? & _ & H)]; [|discriminate].
          apply mapM_Raise in H as (g & _ & H).
          now apply query_geom_Raise in H as ->. }
        destruct (fetchone rows) as [[|v row]|]; try discriminate;
          now injection H as <-.
      * right. right. injection H as <-. auto.
Qed.

(** A body without [geojson], and a target reference system the concrete
    engine does not know. *)
Lemma http_errors_of_geometry_handlers_witness :
  (polygon_area (E := demo) Demo.loads ∅ = Raise (ValueError "geojson is required") /\
   is_HTTPException (ValueError "geojson is required") = false) /\
  (transform (E := demo) Demo.loads
     (<["geojson" := demo_point 30 60]> (<["to_epsg" := JInt 1]> ∅)) =
     Raise DatabaseError /\
   is_HTTPException DatabaseError = false).
Proof.
  split; (split; [reflexivity|]).
  - apply (proj1 (http_errors_of_geometry_handlers (E := demo) Demo.loads ∅
                    (ValueError "geojson is required"))).
    reflexivity.
  - apply (proj1 (proj2 (proj2 (http_errors_of_geometry_handlers (E := demo) Demo.loads
             (<["geojson" := demo_point 30 60]> (<["to_epsg" := JInt 1]> ∅))
             DatabaseError)))).
    reflexivity.
Defined.

(** X16. Without a [geojson] (absent or null) the area, perimeter and
    intersects handlers raise the adapter's [ValueError("geojson is
    required")], on every engine and whatever else the body holds; the
    transform handler does the same once [to_epsg] has been coerced, and
    raises the coercion error otherwise. *)
Theorem missing_geojson `{E : PostGIS} (json_loads : string -> option json)
    (payload : gmap string json) :
  Py.get payload "geojson" = JNull ->
  polygon_area json_loads payload = Raise (ValueError "geojson is required") /\
  polygon_perimeter json_loads payload = Raise (ValueError "geojson is required") /\
  polygon_intersects json_loads payload = Raise (ValueError "geojson is required") /\
  (forall n, Py.int (Py.get_default payload "to_epsg" (JInt 3857)) = Return n ->
     transform json_loads payload = Raise (ValueError "geojson is required")) /\
  (forall e, Py.int (Py.get_default payload "to_epsg" (JInt 3857)) = Raise e ->
     transform json_loads payload = Raise e).
Proof.
  intros Hg. unfold polygon_area, polygon_perimeter, polygon_intersects, transform.
  rewrite Hg. repeat split; try reflexivity.
  - intros n Hn. now rewrite Hn.
  - intros e He. now rewrite He.
Qed.

Lemma missing_geojson_witness :
  polygon_perimeter (E := demo) Demo.loads (<["source" := JInt 5]> ∅) =
    Raise (ValueError "geojson is required") /\
  transform (E := demo) Demo.loads (<["to_epsg" := JStr "x"]> ∅) =
    Raise (ValueError "invalid literal for int() with base 10").
Proof.
  split.
  - apply (missing_geojson (E := demo) Demo.loads (<["source" := JInt 5]> ∅)).
    reflexivity.
  - apply (missing_geojson (E := demo) Demo.loads (<["to_epsg" := JStr "x"]> ∅));
      reflexivity.
Defined.
